(** * master-ts-types: the validator algebra of [src/library/index.ts]

    A shallow embedding of namespace [ms]: a validator is a callable paired
    with an [error] message generator; the factories below are the source's
    factories, written over a model of the JavaScript values they inspect. *)

From Stdlib Require Import ZArith Bool List.
From Stdlib Require Import Floats.PrimFloat Floats.SpecFloat Floats.FloatOps Floats.FloatAxioms.
From Stdlib Require Import Uint63.
From stdpp Require Import base option list strings gmap pretty.

Set Warnings "-register-all".
Local Open Scope string_scope.

(** ** JavaScript values

    The eight [typeof] classes.  Numbers are IEEE binary64 (the kernel's
    primitive floats), bigints are mathematical integers, a symbol and every
    object carries its identity [id]: strict equality on them is identity, so
    two objects with the same contents and different [id]s are distinct.
    A string is a sequence of code units (here restricted to code units
    below 256).

    The [props] of an object are the properties that the property read
    [value[key]] finds, own or inherited, by key (the library only reads
    properties, so it cannot tell the two apart); a key that is not found
    reads as [undefined].  Properties are plain data: reading one runs no
    code.  An array is its dense list of elements, plus the named properties
    a read finds. *)
Inductive value : Type :=
| VUndefined
| VNull
| VBoolean (b : bool)
| VNumber (n : float)
| VString (s : string)
| VSymbol (id : nat) (description : option string)
| VBigInt (z : Z)
| VObject (id : nat) (props : gmap string value)
| VArray (id : nat) (elems : list value) (props : gmap string value)
| VFunction (id : nat) (props : gmap string value).

(** ** Completions: an evaluation returns normally or throws. *)
Inductive exception : Type :=
| TypeError
| Error (message : string)
| Thrown (v : value).

Inductive completion (A : Type) : Type :=
| Normal (a : A)
| Throw (e : exception).
Arguments Normal {A} a.
Arguments Throw {A} e.

Definition bind {A B : Type} (c : completion A) (k : A -> completion B) : completion B :=
  match c with
  | Normal a => k a
  | Throw e => Throw e
  end.

#[export] Instance completion_bind : MBind completion := fun A B k c => bind c k.

(** [a && b] and [a || b] on boolean operands: the right operand is
    evaluated only when the left one does not decide the result. *)
Definition and_then (a b : completion bool) : completion bool :=
  bind a (fun x => if x then b else Normal false).

Definition or_else (a b : completion bool) : completion bool :=
  bind a (fun x => if x then Normal true else b).

(** [Array.prototype.every] and [Array.prototype.some] with a boolean
    callback, over a dense list: left to right, stopping at the first
    element that decides. *)
Fixpoint every {A : Type} (callback : A -> completion bool) (l : list A) : completion bool :=
  match l with
  | [] => Normal true
  | x :: l' => and_then (callback x) (every callback l')
  end.

Fixpoint some {A : Type} (callback : A -> completion bool) (l : list A) : completion bool :=
  match l with
  | [] => Normal false
  | x :: l' => or_else (callback x) (some callback l')
  end.

(** [Array.prototype.map] with a callback that may throw. *)
Fixpoint map_completion {A B : Type} (callback : A -> completion B) (l : list A) : completion (list B) :=
  match l with
  | [] => Normal []
  | x :: l' =>
      bind (callback x) (fun y => bind (map_completion callback l') (fun ys => Normal (y :: ys)))
  end.

(** ** Operators on values *)

(** [typeof value]. *)
Definition typeof (v : value) : string :=
  match v with
  | VUndefined => "undefined"
  | VNull => "object"
  | VBoolean _ => "boolean"
  | VNumber _ => "number"
  | VString _ => "string"
  | VSymbol _ _ => "symbol"
  | VBigInt _ => "bigint"
  | VObject _ _ => "object"
  | VArray _ _ _ => "object"
  | VFunction _ _ => "function"
  end.

(** The identity of an object (none for a primitive). *)
Definition address (v : value) : option nat :=
  match v with
  | VObject id _ | VArray id _ _ | VFunction id _ => Some id
  | _ => None
  end.

(** [x === y] (IsStrictlyEqual): no coercion; numbers by IEEE equality, so
    NaN differs from itself and +0 equals -0; objects by identity. *)
Definition strict_equals (x y : value) : bool :=
  match x, y with
  | VUndefined, VUndefined => true
  | VNull, VNull => true
  | VBoolean a, VBoolean b => Bool.eqb a b
  | VNumber a, VNumber b => PrimFloat.eqb a b
  | VString a, VString b => String.eqb a b
  | VSymbol a _, VSymbol b _ => Nat.eqb a b
  | VBigInt a, VBigInt b => Z.eqb a b
  | _, _ =>
      match address x, address y with
      | Some a, Some b => Nat.eqb a b
      | _, _ => false
      end
  end.

(** SameValueZero, the comparison of [Array.prototype.includes]: strict
    equality, except that NaN is the same value as NaN. *)
Definition same_value_zero (x y : value) : bool :=
  match x, y with
  | VNumber a, VNumber b => (is_nan a && is_nan b) || PrimFloat.eqb a b
  | _, _ => strict_equals x y
  end.

(** [values.includes(value)]. *)
Definition includes (values : list value) (v : value) : bool :=
  existsb (fun element => same_value_zero v element) values.

(** The number of a length (exact below 2^53). *)
Definition float_of_nat (n : nat) : float :=
  PrimFloat.of_uint63 (Uint63.of_Z (Z.of_nat n)).

(** The element of an array at a property key: the key is an array index
    when it is the decimal rendering of a position of the array. *)
Definition element_at (elems : list value) (key : string) : option value :=
  match list_find (fun i : nat => key = pretty i) (seq 0 (List.length elems)) with
  | Some (_, i) => elems !! i
  | None => None
  end.

(** [value[key]] on an object (the callers have checked [typeof]); a key
    that is not found reads as [undefined]. *)
Definition get (v : value) (key : string) : value :=
  match v with
  | VObject _ props | VFunction _ props => default VUndefined (props !! key)
  | VArray _ elems props =>
      if String.eqb key "length" then VNumber (float_of_nat (List.length elems))
      else match element_at elems key with
           | Some x => x
           | None => default VUndefined (props !! key)
           end
  | _ => VUndefined
  end.

(** The properties a read finds on an object whose own properties are
    [own] and whose prototype chain provides [inherited]: an own property
    shadows an inherited one of the same key. *)
Definition inherit (own inherited : gmap string value) : gmap string value :=
  own ∪ inherited.

(** [value.length] on any value: reading a property of [null] or
    [undefined] throws a TypeError; a string has its number of code units;
    the other primitives have no such property. *)
Definition get_length (v : value) : completion value :=
  match v with
  | VUndefined | VNull => Throw TypeError
  | VString s => Normal (VNumber (float_of_nat (String.length s)))
  | VBoolean _ | VNumber _ | VSymbol _ _ | VBigInt _ => Normal VUndefined
  | VObject _ _ | VArray _ _ _ | VFunction _ _ => Normal (get v "length")
  end.

(** [value.every(callback)] (the callers have checked [Array.isArray]):
    the method of arrays, on the arrays of the model, which have no holes
    (a sparse array, whose holes the method skips, is not a value of the
    model).  What the call does on another value is outside the model and
    rendered as a TypeError. *)
Definition value_every (v : value) (callback : value -> completion bool) : completion bool :=
  match v with
  | VArray _ elems _ => every callback elems
  | _ => Throw TypeError
  end.

(** [Array.isArray(value)]. *)
Definition isArray (v : value) : bool :=
  match v with
  | VArray _ _ _ => true
  | _ => false
  end.

(** ** The engine's conversions

    A relational comparison converts its operand to a numeric, a template
    literal converts its substitutions to strings.  On primitives the
    conversions are fixed below; what the engine computes from the text of
    a string or the digits of a number, and what an object's own conversion
    methods do, is left to the host. *)
Inductive numeric : Type :=
| Num (n : float)
| Big (z : Z).

Class Host : Type := {
  (** StringToNumber: the number a string denotes (NaN when none). *)
  StringToNumber : string -> float;
  (** Number::toString, radix 10. *)
  NumberToString : float -> string;
  (** ToNumeric(ToPrimitive(object, number)). *)
  ObjectToNumeric : value -> completion numeric;
  (** ToString(object). *)
  ObjectToString : value -> completion string;
  (** The method call [object.toString()]. *)
  CallToString : value -> completion value
}.

Section Conversions.
Context `{Host}.

(** ToNumeric of the operand of a comparison with a number. *)
Definition to_numeric (v : value) : completion numeric :=
  match v with
  | VUndefined => Normal (Num nan)
  | VNull => Normal (Num 0%float)
  | VBoolean b => Normal (Num (if b then 1%float else 0%float))
  | VNumber n => Normal (Num n)
  | VString s => Normal (Num (StringToNumber s))
  | VSymbol _ _ => Throw TypeError
  | VBigInt z => Normal (Big z)
  | VObject _ _ | VArray _ _ _ | VFunction _ _ => ObjectToNumeric v
  end.

(** Number::lessThan: undefined ([None]) when an operand is NaN. *)
Definition number_lt (x y : float) : option bool :=
  if is_nan x || is_nan y then None else Some (PrimFloat.ltb x y).

(** The mathematical comparison of a bigint with a number. *)
Definition bigint_compare_number (z : Z) (f : float) : option comparison :=
  match Prim2SF f with
  | S754_nan => None
  | S754_zero _ => Some (z ?= 0)%Z
  | S754_infinity s => Some (if s then Gt else Lt)
  | S754_finite s m e =>
      let mz := if s then Zneg m else Zpos m in
      Some (if (0 <=? e)%Z then (z ?= mz * 2 ^ e)%Z else (z * 2 ^ (- e) ?= mz)%Z)
  end.

(** IsLessThan on numerics. *)
Definition is_less_than (a b : numeric) : option bool :=
  match a, b with
  | Num x, Num y => number_lt x y
  | Big z, Num y =>
      match bigint_compare_number z y with
      | Some Lt => Some true
      | Some _ => Some false
      | None => None
      end
  | Num x, Big z =>
      match bigint_compare_number z x with
      | Some Gt => Some true
      | Some _ => Some false
      | None => None
      end
  | Big z, Big w => Some (z <? w)%Z
  end.

(** [value >= bound]: true when [value < bound] is false (not undefined). *)
Definition js_ge (v : value) (bound : float) : completion bool :=
  nx ← to_numeric v;
  Normal (match is_less_than nx (Num bound) with Some false => true | _ => false end).

(** [value <= bound]: true when [bound < value] is false (not undefined). *)
Definition js_le (v : value) (bound : float) : completion bool :=
  nx ← to_numeric v;
  Normal (match is_less_than (Num bound) nx with Some false => true | _ => false end).

(** ToString, the conversion of a template substitution [${value}]. *)
Definition to_string (v : value) : completion string :=
  match v with
  | VUndefined => Normal "undefined"
  | VNull => Normal "null"
  | VBoolean b => Normal (if b then "true" else "false")
  | VNumber n => Normal (NumberToString n)
  | VString s => Normal s
  | VSymbol _ _ => Throw TypeError
  | VBigInt z => Normal (pretty z)
  | VObject _ _ | VArray _ _ _ | VFunction _ _ => ObjectToString v
  end.

(** [value?.toString()]: [undefined] on [null] and [undefined], the
    built-in method of a primitive, the object's own method otherwise. *)
Definition optional_toString (v : value) : completion value :=
  match v with
  | VUndefined | VNull => Normal VUndefined
  | VBoolean b => Normal (VString (if b then "true" else "false"))
  | VNumber n => Normal (VString (NumberToString n))
  | VString s => Normal (VString s)
  | VSymbol _ description => Normal (VString ("Symbol(" ++ default "" description ++ ")"))
  | VBigInt z => Normal (VString (pretty z))
  | VObject _ _ | VArray _ _ _ | VFunction _ _ => CallToString v
  end.

(** [${value?.toString()}]. *)
Definition toString_text (v : value) : completion string :=
  r ← optional_toString v; to_string r.

(** [items.join(separator)]: [null] and [undefined] elements render as
    the empty string. *)
Definition join (separator : string) (items : list value) : completion string :=
  parts ← map_completion
             (fun x => match x with VUndefined | VNull => Normal "" | _ => to_string x end)
             items;
  Normal (String.concat separator parts).

End Conversions.

(** ** Namespace [ms] *)
Module ms.

(** The type [unknown] of the values handed to a validator. *)
Abbreviation unknown := value (only parsing).

(** [Validator<T>]: the callable, and its [error] message generator.  The
    type parameter is static only.  [createValidator(validator, error)]
    attaches [error] to the callable. *)
Record Validator : Type := createValidator {
  test : unknown -> completion bool;
  error : unknown -> completion string
}.
Coercion test : Validator >-> Funclass.

Section factories.
Context `{Host}.

Definition string : Validator :=
  createValidator
    (fun value => Normal (String.eqb (typeof value) "string"))
    (fun value => Normal ("Expected string, got " ++ typeof value)).

Definition number : Validator :=
  createValidator
    (fun value => Normal (String.eqb (typeof value) "number"))
    (fun value => Normal ("Expected number, got " ++ typeof value)).

Definition boolean : Validator :=
  createValidator
    (fun value => Normal (String.eqb (typeof value) "boolean"))
    (fun value => Normal ("Expected boolean, got " ++ typeof value)).

Definition symbol : Validator :=
  createValidator
    (fun value => Normal (String.eqb (typeof value) "symbol"))
    (fun value => Normal ("Expected symbol, got " ++ typeof value)).

Definition bigint : Validator :=
  createValidator
    (fun value => Normal (String.eqb (typeof value) "bigint"))
    (fun value => Normal ("Expected bigint, got " ++ typeof value)).

Definition nullable (validator : Validator) : Validator :=
  createValidator
    (fun value => or_else (Normal (strict_equals value VNull)) (validator value))
    (fun value =>
       m ← error validator value;
       Normal ("Expected null or " ++ m ++ ", got " ++ typeof value)).

Definition undefinable (validator : Validator) : Validator :=
  createValidator
    (fun value => or_else (Normal (strict_equals value VUndefined)) (validator value))
    (fun value =>
       m ← error validator value;
       Normal ("Expected undefined or " ++ m ++ ", got " ++ typeof value)).

Definition literal (value : unknown) : Validator :=
  createValidator
    (fun v => Normal (strict_equals v value))
    (fun v =>
       expected ← toString_text value;
       got ← toString_text v;
       Normal ("Expected " ++ expected ++ ", got " ++ got)).

Definition oneOf (values : list unknown) : Validator :=
  createValidator
    (fun value => Normal (includes values value))
    (fun value =>
       items ← map_completion optional_toString values;
       expected ← join ", " items;
       got ← toString_text value;
       Normal ("Expected one of " ++ expected ++ ", got " ++ got)).

Definition oneOfType (type : Validator) (values : list unknown) : Validator :=
  createValidator
    (fun value => Normal (includes values value))
    (fun value =>
       items ← map_completion (fun v => error type v) values;
       got ← toString_text value;
       Normal ("Expected one of " ++ String.concat ", " items ++ ", got " ++ got)).

(** The shape is given by [Object.entries(validators)]: its keys with
    their validators, in the order of enumeration. *)
Definition object (validators : list (String.string * Validator)) : Validator :=
  createValidator
    (fun value =>
       and_then
         (and_then (Normal (negb (strict_equals value VNull)))
                   (Normal (String.eqb (typeof value) "object")))
         (every (fun '(key, validator) => test validator (get value key)) validators))
    (fun value => Normal ("Expected object, got " ++ typeof value)).

Definition array (validator : Validator) : Validator :=
  createValidator
    (fun value =>
       and_then (Normal (isArray value)) (value_every value (fun v => validator v)))
    (fun value => Normal ("Expected array, got " ++ typeof value)).

Definition union (validators : list Validator) : Validator :=
  createValidator
    (fun value => some (fun validator : Validator => validator value) validators)
    (fun value =>
       items ← map_completion (fun validator => error validator value) validators;
       got ← toString_text value;
       Normal ("Expected one of " ++ String.concat ", " items ++ ", got " ++ got)).

Definition intersection (validators : list Validator) : Validator :=
  createValidator
    (fun value => every (fun validator : Validator => validator value) validators)
    (fun value =>
       items ← map_completion (fun validator => error validator value) validators;
       got ← toString_text value;
       Normal ("Expected intersection of " ++ String.concat ", " items ++ ", got " ++ got)).

Definition min (validator : Validator) (min : float) : Validator :=
  createValidator
    (fun value => and_then (validator value) (js_ge value min))
    (fun value =>
       m ← error validator value;
       got ← to_string value;
       Normal ("Expected " ++ m ++ " >= " ++ NumberToString min ++ ", got " ++ got)).

Definition max (validator : Validator) (max : float) : Validator :=
  createValidator
    (fun value => and_then (validator value) (js_le value max))
    (fun value =>
       m ← error validator value;
       got ← to_string value;
       Normal ("Expected " ++ m ++ " <= " ++ NumberToString max ++ ", got " ++ got)).

Definition range (validator : Validator) (min max : float) : Validator :=
  createValidator
    (fun value => and_then (and_then (validator value) (js_ge value min)) (js_le value max))
    (fun value =>
       m ← error validator value;
       got ← to_string value;
       Normal ("Expected " ++ m ++ " >= " ++ NumberToString min
               ++ " && <= " ++ NumberToString max ++ ", got " ++ got)).

Definition length (validator : Validator) (length : float) : Validator :=
  createValidator
    (fun value =>
       and_then (validator value)
                (l ← get_length value; Normal (strict_equals l (VNumber length))))
    (fun value =>
       m ← error validator value;
       got ← to_string value;
       Normal ("Expected " ++ m ++ ".length === " ++ NumberToString length ++ ", got " ++ got)).

Definition minLength (validator : Validator) (min : float) : Validator :=
  createValidator
    (fun value => and_then (validator value) (l ← get_length value; js_ge l min))
    (fun value =>
       m ← error validator value;
       got ← to_string value;
       Normal ("Expected " ++ m ++ ".length >= " ++ NumberToString min ++ ", got " ++ got)).

Definition maxLength (validator : Validator) (max : float) : Validator :=
  createValidator
    (fun value => and_then (validator value) (l ← get_length value; js_le l max))
    (fun value =>
       m ← error validator value;
       got ← to_string value;
       Normal ("Expected " ++ m ++ ".length <= " ++ NumberToString max ++ ", got " ++ got)).

Definition rangeLength (validator : Validator) (min max : float) : Validator :=
  createValidator
    (fun value =>
       and_then
         (and_then (validator value) (l ← get_length value; js_ge l min))
         (l ← get_length value; js_le l max))
    (fun value =>
       m ← error validator value;
       got ← to_string value;
       Normal ("Expected " ++ m ++ ".length >= " ++ NumberToString min
               ++ " && <= " ++ NumberToString max ++ ", got " ++ got)).

(** [parse]: the value itself when the validator accepts it; otherwise
    [throw new Error(validator.error(value))]. *)
Definition parse (validator : Validator) (value : unknown) : completion unknown :=
  match validator value with
  | Normal true => Normal value
  | Normal false => m ← error validator value; Throw (Error m)
  | Throw e => Throw e
  end.

Definition parseUnknown (validator : Validator) (value : unknown) : completion unknown :=
  parse validator value.

End factories.
End ms.

(** ** The validators built from the factories

    A [schema] is the tree of factory calls that constructs a validator;
    [build] performs the calls.  Quantifying over schemas is quantifying
    over every validator the library's factories can produce. *)
Inductive schema : Type :=
| SString
| SNumber
| SBoolean
| SSymbol
| SBigint
| SNullable (s : schema)
| SUndefinable (s : schema)
| SLiteral (v : value)
| SOneOf (vs : list value)
| SOneOfType (type : schema) (vs : list value)
| SObject (shape : list (string * schema))
| SArray (s : schema)
| SUnion (ss : list schema)
| SIntersection (ss : list schema)
| SMin (s : schema) (min : float)
| SMax (s : schema) (max : float)
| SRange (s : schema) (min max : float)
| SLength (s : schema) (length : float)
| SMinLength (s : schema) (min : float)
| SMaxLength (s : schema) (max : float)
| SRangeLength (s : schema) (min max : float).

Fixpoint build `{Host} (s : schema) : ms.Validator :=
  match s with
  | SString => ms.string
  | SNumber => ms.number
  | SBoolean => ms.boolean
  | SSymbol => ms.symbol
  | SBigint => ms.bigint
  | SNullable s => ms.nullable (build s)
  | SUndefinable s => ms.undefinable (build s)
  | SLiteral v => ms.literal v
  | SOneOf vs => ms.oneOf vs
  | SOneOfType type vs => ms.oneOfType (build type) vs
  | SObject shape => ms.object (List.map (fun entry => (fst entry, build (snd entry))) shape)
  | SArray s => ms.array (build s)
  | SUnion ss => ms.union (List.map build ss)
  | SIntersection ss => ms.intersection (List.map build ss)
  | SMin s m => ms.min (build s) m
  | SMax s m => ms.max (build s) m
  | SRange s m n => ms.range (build s) m n
  | SLength s n => ms.length (build s) n
  | SMinLength s m => ms.minLength (build s) m
  | SMaxLength s m => ms.maxLength (build s) m
  | SRangeLength s m n => ms.rangeLength (build s) m n
  end.


(** An evaluation that returns a boolean (it does not throw). *)
Definition returns (c : completion bool) : Prop := exists b : bool, c = Normal b.

(** The values a comparison with a number converts without consulting an
    object or meeting a symbol. *)
Definition orderable (v : value) : bool :=
  match v with
  | VUndefined | VNull | VBoolean _ | VNumber _ | VString _ | VBigInt _ => true
  | VSymbol _ _ | VObject _ _ | VArray _ _ _ | VFunction _ _ => false
  end.

(** The values whose [length] is the number of their elements. *)
Definition sized (v : value) : bool :=
  match v with
  | VString _ | VArray _ _ _ => true
  | _ => false
  end.

(** The schemas whose refinements are guarded by what they refine: every
    [min], [max] and [range] is over a validator that accepts orderable
    values only, every length refinement over a validator that accepts
    strings and arrays only. *)
Fixpoint guarded `{Host} (s : schema) : Prop :=
  match s with
  | SString | SNumber | SBoolean | SSymbol | SBigint => True
  | SLiteral _ | SOneOf _ | SOneOfType _ _ => True
  | SNullable s | SUndefinable s | SArray s => guarded s
  | SObject shape => foldr (fun entry rest => guarded (snd entry) /\ rest) True shape
  | SUnion ss | SIntersection ss => foldr (fun s rest => guarded s /\ rest) True ss
  | SMin s _ | SMax s _ | SRange s _ _ =>
      guarded s /\ forall x, ms.test (build s) x = Normal true -> orderable x = true
  | SLength s _ | SMinLength s _ | SMaxLength s _ | SRangeLength s _ _ =>
      guarded s /\ forall x, ms.test (build s) x = Normal true -> sized x = true
  end.

(** The number values that are NaN. *)
Definition is_NaN (v : value) : bool :=
  match v with
  | VNumber n => is_nan n
  | _ => false
  end.

(** The schemas whose listed values ([literal], [oneOf], [oneOfType]) are
    all orderable, that is neither symbols nor objects. *)
Fixpoint listed_orderable (s : schema) : bool :=
  match s with
  | SString | SNumber | SBoolean | SSymbol | SBigint => true
  | SNullable s | SUndefinable s | SArray s => listed_orderable s
  | SLiteral v => orderable v
  | SOneOf vs => forallb orderable vs
  | SOneOfType type vs => listed_orderable type && forallb orderable vs
  | SObject shape => forallb (fun entry => listed_orderable (snd entry)) shape
  | SUnion ss | SIntersection ss => forallb listed_orderable ss
  | SMin s _ | SMax s _ | SRange s _ _ => listed_orderable s
  | SLength s _ | SMinLength s _ | SMaxLength s _ | SRangeLength s _ _ => listed_orderable s
  end.

(** ** The usage at the end of the source file *)

Section usage.
Context `{Host}.

Definition person : ms.Validator :=
  ms.object
    [("name", ms.rangeLength ms.string 1%float 32%float);
     ("age", ms.nullable (ms.min ms.number 0%float));
     ("sex", ms.union [ms.literal (VString "man"); ms.literal (VString "woman")]);
     ("city", ms.nullable (ms.oneOf
        [VString ("Krak" ++ String (Ascii.ascii_of_nat 243) "w");
         VString "Oaxaca";
         VString "Moscow";
         VString "Kabul";
         VString "Baghdad";
         VString "Kuala, Lumpur";
         VString "Jeddah";
         VString "Riyadh";
         VString "Mogadishu";
         VString "Dubai";
         VString "Abu Dhabi";
         VString "Sanaa";
         VString "Ibadan";
         VString "Taizz";
         VString "Tehran"]))].

Definition memberRole : ms.Validator :=
  ms.oneOf [VString "admin"; VString "moderator"; VString "user"].

Definition member : ms.Validator :=
  ms.intersection [person; ms.object [("id", ms.string); ("role", memberRole)]].

Definition unknownValue : value := VNull.

End usage.

(** A host that answers every engine conversion with a constant: it runs
    the examples whose evaluation reaches none of them. *)
Definition constant_host : Host := {|
  StringToNumber := fun _ => nan;
  NumberToString := fun _ => "NaN";
  ObjectToNumeric := fun _ => Normal (Num nan);
  ObjectToString := fun _ => Normal "[object Object]";
  CallToString := fun _ => Normal (VString "[object Object]")
|}.

(** ** Laws of the completion operators *)

Lemma and_then_true (a b : completion bool) :
  and_then a b = Normal true <-> a = Normal true /\ b = Normal true.
Proof.
  destruct a as [[|]|e]; cbn; split; intros; try tauto; try discriminate;
    destruct_and?; try discriminate; auto.
Qed.

Lemma or_else_true (a b : completion bool) :
  or_else a b = Normal true <-> a = Normal true \/ (a = Normal false /\ b = Normal true).
Proof.
  destruct a as [[|]|e]; cbn; split; intros; auto; destruct_or?; destruct_and?;
    try discriminate; auto.
Qed.

Lemma and_then_throws (a b : completion bool) (e : exception) :
  and_then a b = Throw e <-> a = Throw e \/ (a = Normal true /\ b = Throw e).
Proof.
  destruct a as [[|]|e']; cbn; split; intros; destruct_or?; destruct_and?;
    try discriminate; auto.
Qed.

Lemma and_then_returns (a b : completion bool) :
  returns a -> (a = Normal true -> returns b) -> returns (and_then a b).
Proof.
  intros [[|] ->] Hb; cbn; [auto | exists false; reflexivity].
Qed.

Lemma or_else_returns (a b : completion bool) :
  returns a -> (a = Normal false -> returns b) -> returns (or_else a b).
Proof.
  intros [[|] ->] Hb; cbn; [exists true; reflexivity | auto].
Qed.

Lemma returns_Normal (b : bool) : returns (Normal b).
Proof. exists b; reflexivity. Qed.

Lemma every_true {A : Type} (f : A -> completion bool) (l : list A) :
  every f l = Normal true <-> Forall (fun a => f a = Normal true) l.
Proof.
  induction l as [|a l IH]; cbn [every].
  - split; [constructor | reflexivity].
  - rewrite and_then_true, IH, Forall_cons. reflexivity.
Qed.

Lemma every_returns {A : Type} (f : A -> completion bool) (l : list A) :
  Forall (fun a => returns (f a)) l -> returns (every f l).
Proof.
  induction 1 as [|a l Ha _ IH]; cbn [every].
  - apply returns_Normal.
  - apply and_then_returns; auto.
Qed.

Lemma some_returns {A : Type} (f : A -> completion bool) (l : list A) :
  Forall (fun a => returns (f a)) l -> returns (some f l).
Proof.
  induction 1 as [|a l Ha _ IH]; cbn [some].
  - apply returns_Normal.
  - apply or_else_returns; auto.
Qed.

Lemma every_ext_Forall {A : Type} (f g : A -> completion bool) (l : list A) :
  Forall (fun a => f a = g a) l -> every f l = every g l.
Proof.
  induction 1 as [|a l Ha _ IH]; cbn [every]; [reflexivity | rewrite Ha, IH; reflexivity].
Qed.

Lemma every_map {A B : Type} (h : A -> B) (f : B -> completion bool) (l : list A) :
  every f (List.map h l) = every (fun a => f (h a)) l.
Proof.
  induction l as [|a l IH]; cbn [every List.map]; [reflexivity | rewrite IH; reflexivity].
Qed.

Lemma some_map {A B : Type} (h : A -> B) (f : B -> completion bool) (l : list A) :
  some f (List.map h l) = some (fun a => f (h a)) l.
Proof.
  induction l as [|a l IH]; cbn [some List.map]; [reflexivity | rewrite IH; reflexivity].
Qed.

(** When no element throws, [every] is the conjunction and [some] the
    disjunction of the callback's results. *)
Lemma every_forallb {A : Type} (f : A -> completion bool) (g : A -> bool) (l : list A) :
  Forall (fun a => f a = Normal (g a)) l -> every f l = Normal (forallb g l).
Proof.
  induction 1 as [|a l Ha _ IH]; cbn [every forallb]; [reflexivity |].
  rewrite Ha, IH. destruct (g a); reflexivity.
Qed.

Lemma some_existsb {A : Type} (f : A -> completion bool) (g : A -> bool) (l : list A) :
  Forall (fun a => f a = Normal (g a)) l -> some f l = Normal (existsb g l).
Proof.
  induction 1 as [|a l Ha _ IH]; cbn [some existsb]; [reflexivity |].
  rewrite Ha, IH. destruct (g a); reflexivity.
Qed.

Lemma strict_equals_null (v : value) : strict_equals v VNull = true <-> v = VNull.
Proof. destruct v; cbn; split; intros; congruence. Qed.

Lemma string_eqb_true (a b : string) : String.eqb a b = true <-> a = b.
Proof. apply String.eqb_eq. Qed.

(** ** Primitive validators *)

(** C7: each primitive validator (string, number, boolean, symbol, bigint)
    accepts a value exactly when the value's [typeof] tag is the validator's
    kind, and returns false on every other value; a value of another kind
    that could be coerced, such as the string "123" for [number], is
    rejected. *)
Theorem primitive_test_typeof (v : value) :
  Forall (fun entry : string * ms.Validator =>
            (ms.test (snd entry) v = Normal true <-> typeof v = fst entry) /\
            (ms.test (snd entry) v = Normal false <-> typeof v <> fst entry))
         [("string", ms.string); ("number", ms.number); ("boolean", ms.boolean);
          ("symbol", ms.symbol); ("bigint", ms.bigint)]
  /\ ms.test ms.number (VString "123") = Normal false.
Proof.
  split; [| reflexivity].
  repeat constructor; destruct v; cbn; intros; congruence.
Qed.

(** ** Logical combinators *)

(** C4: [union(A,B)] tests as [A.test(x) || B.test(x)] and
    [intersection(A,B)] as [A.test(x) && B.test(x)], for all validators and
    values; with any number of children the test is the left-to-right
    disjunction (conjunction) of the children's tests, and when no child
    throws it is the boolean OR (AND) of their results. *)
Theorem union_intersection_pointwise `{Host} (x : value) :
  (forall A B : ms.Validator,
      ms.test (ms.union [A; B]) x = or_else (ms.test A x) (ms.test B x) /\
      ms.test (ms.intersection [A; B]) x = and_then (ms.test A x) (ms.test B x)) /\
  (forall (A B : ms.Validator) (a b : bool),
      ms.test A x = Normal a -> ms.test B x = Normal b ->
      ms.test (ms.union [A; B]) x = Normal (a || b) /\
      ms.test (ms.intersection [A; B]) x = Normal (a && b)) /\
  (forall validators : list ms.Validator,
      ms.test (ms.union validators) x
      = foldr (fun V rest => or_else (ms.test V x) rest) (Normal false) validators /\
      ms.test (ms.intersection validators) x
      = foldr (fun V rest => and_then (ms.test V x) rest) (Normal true) validators) /\
  (forall (validators : list ms.Validator) (result : ms.Validator -> bool),
      Forall (fun V => ms.test V x = Normal (result V)) validators ->
      ms.test (ms.union validators) x = Normal (existsb result validators) /\
      ms.test (ms.intersection validators) x = Normal (forallb result validators)).
Proof.
  split; [| split; [| split]].
  - intros A B. cbn. destruct (ms.test A x) as [[|]|]; cbn; split; try reflexivity;
      destruct (ms.test B x) as [[|]|]; reflexivity.
  - intros A B a b HA HB. cbn. rewrite HA, HB. destruct a, b; split; reflexivity.
  - intros validators. cbn [ms.test ms.union ms.intersection].
    induction validators as [|V l [IHu IHi]]; cbn; [split; reflexivity |].
    rewrite IHu, IHi. split; reflexivity.
  - intros validators result Hall. cbn [ms.test ms.union ms.intersection].
    split; [apply some_existsb | apply every_forallb]; assumption.
Qed.

(** The theorem at [number] and [string] on the number 1. *)
Lemma union_intersection_pointwise_witness :
  ms.test ms.number (VNumber 1%float) = Normal true /\
  ms.test ms.string (VNumber 1%float) = Normal false /\
  ms.test (ms.union (H := constant_host) [ms.number; ms.string]) (VNumber 1%float)
  = Normal (true || false) /\
  ms.test (ms.intersection (H := constant_host) [ms.number; ms.string]) (VNumber 1%float)
  = Normal (true && false).
Proof.
  split; [reflexivity |]. split; [reflexivity |].
  apply (proj1 (proj2 (@union_intersection_pointwise constant_host (VNumber 1%float)))
           ms.number ms.string true false); reflexivity.
Defined.

(** ** Value-set combinators *)

Lemma includes_true (values : list value) (x : value) :
  includes values x = true <-> exists v, v ∈ values /\ same_value_zero x v = true.
Proof.
  unfold includes. rewrite existsb_exists.
  split; intros (v & Hin & Hv); exists v; split; auto; apply list_elem_of_In; auto.
Qed.

Lemma includes_false (values : list value) (x : value) :
  includes values x = false <-> forall v, v ∈ values -> same_value_zero x v = false.
Proof.
  rewrite <- not_true_iff_false, includes_true. split.
  - intros Hno v Hin. apply not_true_iff_false. intros Hv. apply Hno. eauto.
  - intros Hall (v & Hin & Hv). rewrite (Hall v Hin) in Hv. discriminate.
Qed.

Lemma same_value_zero_strict (x v : value) :
  same_value_zero x v = strict_equals x v || (is_NaN x && is_NaN v).
Proof.
  destruct x, v; cbn; rewrite ?andb_false_r, ?orb_false_r; try reflexivity.
  apply orb_comm.
Qed.

Lemma same_value_zero_identity (x v : value) (i j : nat) :
  address x = Some i -> address v = Some j -> i <> j -> same_value_zero x v = false.
Proof.
  intros Hx Hv Hij.
  destruct x; try discriminate Hx; destruct v; try discriminate Hv; cbn in *;
    inversion Hx; inversion Hv; subst; apply Nat.eqb_neq; assumption.
Qed.

(** C2 as stated fails: [oneOf(NaN)] accepts NaN, which is not strictly
    equal to itself, because [includes] compares by SameValueZero. *)
Lemma oneOf_accepts_NaN :
  (forall h : Host, ms.test (ms.oneOf [VNumber nan]) (VNumber nan) = Normal true) /\
  strict_equals (VNumber nan) (VNumber nan) = false.
Proof. split; [intros h |]; reflexivity. Qed.

(** C2 (amended): [oneOf(v1..vn).test(x)] is true exactly when [x] is the
    same value as one of [v1..vn] under SameValueZero, the comparison of
    [Array.prototype.includes], and false otherwise; SameValueZero is strict
    equality except that NaN matches NaN, and two objects of different
    identity never match, whatever their contents. *)
Theorem oneOf_same_value_zero `{Host} (values : list value) (x : value) :
  (ms.test (ms.oneOf values) x = Normal true
   <-> exists v, v ∈ values /\ same_value_zero x v = true) /\
  (ms.test (ms.oneOf values) x = Normal false
   <-> forall v, v ∈ values -> same_value_zero x v = false) /\
  (forall v, same_value_zero x v = strict_equals x v || (is_NaN x && is_NaN v)) /\
  (forall v i j, address x = Some i -> address v = Some j -> i <> j ->
                 same_value_zero x v = false).
Proof.
  split; [| split; [| split]].
  - cbn. rewrite <- includes_true. split; congruence.
  - cbn. rewrite <- includes_false. split; congruence.
  - apply same_value_zero_strict.
  - apply same_value_zero_identity.
Qed.

(** The theorem on two objects with the same contents: the listed one is
    found, its structural copy is not. *)
Lemma oneOf_same_value_zero_witness :
  same_value_zero (VObject 2 {[ "a" := VNull ]}) (VObject 1 {[ "a" := VNull ]}) = false /\
  ms.test (ms.oneOf (H := constant_host) [VObject 1 {[ "a" := VNull ]}])
          (VObject 1 {[ "a" := VNull ]}) = Normal true /\
  ms.test (ms.oneOf (H := constant_host) [VObject 1 {[ "a" := VNull ]}])
          (VObject 2 {[ "a" := VNull ]}) = Normal false.
Proof.
  split; [| split].
  - apply (proj2 (proj2 (proj2 (@oneOf_same_value_zero constant_host
             [VObject 1 {[ "a" := VNull ]}] (VObject 2 {[ "a" := VNull ]}))))
             (VObject 1 {[ "a" := VNull ]}) 2 1); [reflexivity | reflexivity | discriminate].
  - reflexivity.
  - reflexivity.
Defined.

(** C6: [oneOfType(T, v1..vn)] tests exactly as [oneOf(v1..vn)]: the
    membership scan decides, and the type validator [T] is not consulted by
    the test (any two type validators give the same test); [T] only phrases
    the failure message. *)
Theorem oneOfType_tests_as_oneOf `{Host} (type : ms.Validator) (values : list value) (x : value) :
  ms.test (ms.oneOfType type values) x = ms.test (ms.oneOf values) x /\
  (forall type' : ms.Validator,
      ms.test (ms.oneOfType type' values) x = ms.test (ms.oneOfType type values) x) /\
  ms.test (ms.oneOfType type values) x = Normal (includes values x) /\
  ms.error (ms.oneOfType ms.string [VNumber 1%float]) VNull
  = Normal "Expected one of Expected string, got number, got undefined" /\
  ms.error (ms.oneOfType ms.number [VNumber 1%float]) VNull
  = Normal "Expected one of Expected number, got number, got undefined".
Proof. repeat split; reflexivity. Qed.

(** ** Parse entry points *)

(** C3 as stated fails: [min(number, 0)] rejects a symbol, and formatting
    the symbol into the failure message throws a TypeError, so [parse] and
    [parseUnknown] raise that TypeError and no error carrying a message. *)
Lemma parse_raises_TypeError :
  (forall h : Host, ms.test (ms.min ms.number 0%float) (VSymbol 0 None) = Normal false) /\
  (forall h : Host, ms.error (ms.min ms.number 0%float) (VSymbol 0 None) = Throw TypeError) /\
  (forall h : Host, ms.parse (ms.min ms.number 0%float) (VSymbol 0 None) = Throw TypeError) /\
  (forall h : Host,
      ms.parseUnknown (ms.min ms.number 0%float) (VSymbol 0 None) = Throw TypeError).
Proof. repeat split; intros h; reflexivity. Qed.

(** C3 (amended): [parse(V, x)] returns [x] itself when [V.test(x)] is
    true; when [V.test(x)] is false and [V.error(x)] yields the message [m],
    it raises an [Error] whose message is exactly [m]; [parseUnknown] is
    [parse]. *)
Theorem parse_returns_or_raises (V : ms.Validator) (x : value) :
  (ms.test V x = Normal true -> ms.parse V x = Normal x) /\
  (forall m : string,
      ms.test V x = Normal false -> ms.error V x = Normal m ->
      ms.parse V x = Throw (Error m)) /\
  ms.parseUnknown V x = ms.parse V x.
Proof.
  unfold ms.parseUnknown, ms.parse. repeat split.
  - intros ->. reflexivity.
  - intros m -> ->. reflexivity.
Qed.

(** The theorem on [number]: the number 1 is returned, the string "123"
    raises the error of [number]. *)
Lemma parse_returns_or_raises_witness :
  ms.parse ms.number (VNumber 1%float) = Normal (VNumber 1%float) /\
  ms.parse ms.number (VString "123") = Throw (Error "Expected number, got string").
Proof.
  split.
  - apply (proj1 (parse_returns_or_raises ms.number (VNumber 1%float))). reflexivity.
  - apply (proj1 (proj2 (parse_returns_or_raises ms.number (VString "123")))); reflexivity.
Defined.

(** An exception thrown by the test or by the message generator reaches
    the caller of [parse] unchanged. *)
Lemma parse_propagates (V : ms.Validator) (x : value) (e : exception) :
  ms.test V x = Throw e \/ (ms.test V x = Normal false /\ ms.error V x = Throw e) ->
  ms.parse V x = Throw e.
Proof.
  unfold ms.parse. intros [-> | [-> ->]]; reflexivity.
Qed.

(** ** Structural combinators *)

(** The test of [object]: the kind check, then the declared keys. *)
Lemma object_test (shape : list (string * ms.Validator)) (v : value) :
  ms.test (ms.object shape) v
  = and_then (Normal (negb (strict_equals v VNull) && String.eqb (typeof v) "object"))
             (every (fun entry => ms.test (snd entry) (get v (fst entry))) shape).
Proof.
  cbn [ms.test ms.object].
  rewrite (every_ext_Forall _ (fun entry => ms.test (snd entry) (get v (fst entry)))).
  - destruct (strict_equals v VNull), (String.eqb (typeof v) "object"); reflexivity.
  - apply Forall_forall. intros [key V] _. reflexivity.
Qed.

Lemma object_kind (v : value) :
  negb (strict_equals v VNull) && String.eqb (typeof v) "object" = true
  <-> v <> VNull /\ typeof v = "object".
Proof.
  rewrite andb_true_iff, negb_true_iff, string_eqb_true, <- not_true_iff_false,
    strict_equals_null. reflexivity.
Qed.

Lemma object_test_agree (shape : list (string * ms.Validator)) (u v : value) :
  u <> VNull -> typeof u = "object" -> v <> VNull -> typeof v = "object" ->
  (forall key V, (key, V) ∈ shape -> get u key = get v key) ->
  ms.test (ms.object shape) u = ms.test (ms.object shape) v.
Proof.
  intros Hu Hu' Hv Hv' Hagree. rewrite !object_test.
  rewrite (proj2 (object_kind u)), (proj2 (object_kind v)) by auto.
  f_equal. apply every_ext_Forall, Forall_forall. intros [key V] Hin.
  cbn. rewrite (Hagree key V); [reflexivity | assumption].
Qed.

Lemma object_test_true (shape : list (string * ms.Validator)) (v : value) :
  ms.test (ms.object shape) v = Normal true <->
  v <> VNull /\ typeof v = "object" /\
  Forall (fun entry => ms.test (snd entry) (get v (fst entry)) = Normal true) shape.
Proof.
  rewrite object_test, and_then_true, every_true. split.
  - intros [Hk Hall]. injection Hk as Hk. apply object_kind in Hk. tauto.
  - intros (Hnull & Hkind & Hall). rewrite (proj2 (object_kind v)); auto.
Qed.

(** C5: [object(shape)] accepts a value exactly when the value is not
    [null], its [typeof] is "object", and every key declared in the shape
    reads in the value as something its validator accepts; a key of the
    value that the shape does not declare never changes the result.  So
    [{name: "a", extra: 1}] is accepted by [object({name: string})], and
    [{name: 1}] and [null] are rejected. *)
Theorem object_accepts_iff :
  (forall (shape : list (string * ms.Validator)) (v : value),
      ms.test (ms.object shape) v = Normal true <->
      v <> VNull /\ typeof v = "object" /\
      Forall (fun entry => ms.test (snd entry) (get v (fst entry)) = Normal true) shape) /\
  (forall (shape : list (string * ms.Validator)) (id : nat) (props : gmap string value)
          (key : string) (extra : value),
      key ∉ shape.*1 ->
      ms.test (ms.object shape) (VObject id (<[key := extra]> props))
      = ms.test (ms.object shape) (VObject id props)) /\
  ms.test (ms.object [("name", ms.string)])
          (VObject 0 (<["name" := VString "a"]> {["extra" := VNumber 1%float]})) = Normal true /\
  ms.test (ms.object [("name", ms.string)])
          (VObject 0 {["name" := VNumber 1%float]}) = Normal false /\
  ms.test (ms.object [("name", ms.string)]) VNull = Normal false.
Proof.
  split; [| split; [| repeat split; reflexivity]].
  - exact object_test_true.
  - intros shape id props key extra Hkey.
    apply object_test_agree; try (discriminate || reflexivity).
    intros k V Hin. cbn. rewrite lookup_insert_ne; [reflexivity |].
    intros ->. apply Hkey. apply list_elem_of_fmap. exists (k, V). auto.
Qed.

(** The theorem on [{name: "a"}] with and without the undeclared key
    [extra]. *)
Lemma object_accepts_iff_witness :
  ("extra" ∉ [("name", ms.string)].*1) /\
  ms.test (ms.object [("name", ms.string)])
          (VObject 0 (<["extra" := VNumber 1%float]> {["name" := VString "a"]}))
  = ms.test (ms.object [("name", ms.string)]) (VObject 0 {["name" := VString "a"]}).
Proof.
  assert (Hfresh : "extra" ∉ [("name", ms.string)].*1).
  { cbn. intros Hin. apply list_elem_of_singleton in Hin. discriminate. }
  split; [exact Hfresh |].
  exact (proj1 (proj2 object_accepts_iff) [("name", ms.string)] 0
           {["name" := VString "a"]} "extra" (VNumber 1%float) Hfresh).
Defined.

(** C9: an array passes the kind check of [object]: its [typeof] is
    "object" and it is not [null], so [object(shape)] accepts an array
    whenever every declared key reads in the array as something its
    validator accepts; with the empty shape every array is accepted, as in
    [object({}).test([])]. *)
Theorem object_accepts_array (id : nat) (elems : list value) (props : gmap string value) :
  typeof (VArray id elems props) = "object" /\
  (forall shape : list (string * ms.Validator),
      Forall (fun entry => ms.test (snd entry) (get (VArray id elems props) (fst entry)) = Normal true)
             shape ->
      ms.test (ms.object shape) (VArray id elems props) = Normal true) /\
  ms.test (ms.object []) (VArray id elems props) = Normal true /\
  ms.test (ms.object []) (VArray 0 [] ∅) = Normal true /\
  ms.test (ms.object [("0", ms.string); ("length", ms.number)]) (VArray 0 [VString "a"] ∅)
  = Normal true.
Proof.
  split; [reflexivity |]. split; [| repeat split; reflexivity].
  intros shape Hall. apply object_test_true. repeat split; [discriminate | assumption].
Qed.

(** The theorem on the array [["a"]] and the shape [{0: string}]. *)
Lemma object_accepts_array_witness :
  Forall (fun entry : string * ms.Validator =>
            ms.test (snd entry) (get (VArray 0 [VString "a"] ∅) (fst entry)) = Normal true)
         [("0", ms.string)] /\
  ms.test (ms.object [("0", ms.string)]) (VArray 0 [VString "a"] ∅) = Normal true.
Proof.
  assert (Hall : Forall (fun entry : string * ms.Validator =>
            ms.test (snd entry) (get (VArray 0 [VString "a"] ∅) (fst entry)) = Normal true)
         [("0", ms.string)]).
  { repeat constructor. }
  split; [exact Hall |].
  exact (proj1 (proj2 (object_accepts_array 0 [VString "a"] ∅)) [("0", ms.string)] Hall).
Defined.

(** C10 as stated fails: a key that the value does not have may be
    inherited, and then it does not read as [undefined].  An object created
    over the prototype [{role: "admin"}] has no [role] of its own and is
    rejected by [object({role: undefinable(number)})], which accepts
    [{role: undefined}]; likewise, over any prototype that provides a
    function [constructor] (as the prototype of [{}] does),
    [object({constructor: undefinable(string)})] rejects the object without
    own properties and accepts the one whose own [constructor] is
    [undefined]. *)
Lemma missing_key_may_be_inherited :
  (ms.test (ms.object [("role", ms.undefinable ms.number)])
           (VObject 1 (inherit ∅ {["role" := VString "admin"]})) = Normal false /\
   ms.test (ms.object [("role", ms.undefinable ms.number)])
           (VObject 2 (inherit {["role" := VUndefined]} {["role" := VString "admin"]}))
   = Normal true) /\
  (forall (inherited : gmap string value) (f : nat) (fprops : gmap string value),
      inherited !! "constructor" = Some (VFunction f fprops) ->
      ms.test (ms.object [("constructor", ms.undefinable ms.string)])
              (VObject 1 (inherit ∅ inherited)) = Normal false /\
      ms.test (ms.object [("constructor", ms.undefinable ms.string)])
              (VObject 2 (inherit {["constructor" := VUndefined]} inherited)) = Normal true).
Proof.
  split; [split; reflexivity |].
  intros inherited f fprops Hctor. unfold inherit. split; cbn.
  - rewrite (lookup_union_r ∅ inherited "constructor") by apply lookup_empty.
    rewrite Hctor. reflexivity.
  - rewrite (lookup_union_Some_l _ inherited "constructor" VUndefined)
      by apply lookup_singleton_eq.
    reflexivity.
Qed.

(** C10 (amended): the test of [object(shape)] depends only on what the
    value reads at the declared keys, where a read [value[key]] finds own
    and inherited properties and a key found on neither reads as
    [undefined]: two non-null values of [typeof] "object" that read the same
    at every declared key test the same.  So a key that the value neither
    has nor inherits behaves exactly like a key present with [undefined]:
    deleting such a key and setting it to [undefined] test the same, and a
    declared key whose validator accepts [undefined] (as [undefinable(V)]
    does) may then be missing.  A key that the value lacks and inherits
    reads as the inherited value. *)
Theorem object_depends_on_declared_keys :
  (forall (shape : list (string * ms.Validator)) (u v : value),
      u <> VNull -> typeof u = "object" -> v <> VNull -> typeof v = "object" ->
      (forall key V, (key, V) ∈ shape -> get u key = get v key) ->
      ms.test (ms.object shape) u = ms.test (ms.object shape) v) /\
  (forall (shape : list (string * ms.Validator)) (id : nat) (props : gmap string value)
          (key : string),
      ms.test (ms.object shape) (VObject id (delete key props))
      = ms.test (ms.object shape) (VObject id (<[key := VUndefined]> props))) /\
  (forall (shape : list (string * ms.Validator)) (key : string) (V : ms.Validator)
          (id : nat) (props : gmap string value),
      ms.test V VUndefined = Normal true -> props !! key = None ->
      ms.test (ms.object ((key, V) :: shape)) (VObject id props)
      = ms.test (ms.object shape) (VObject id props)) /\
  (forall V : ms.Validator, ms.test (ms.undefinable V) VUndefined = Normal true) /\
  (forall (shape : list (string * ms.Validator)) (id : nat) (own inherited : gmap string value)
          (key : string),
      inherited !! key = None ->
      ms.test (ms.object shape) (VObject id (inherit (delete key own) inherited))
      = ms.test (ms.object shape) (VObject id (inherit (<[key := VUndefined]> own) inherited))) /\
  (forall (id : nat) (own inherited : gmap string value) (key : string) (w : value),
      own !! key = None -> inherited !! key = Some w ->
      get (VObject id (inherit own inherited)) key = w).
Proof.
  split; [exact object_test_agree |]. split; [| split; [| split; [| split]]].
  - intros shape id props key.
    apply object_test_agree; try (discriminate || reflexivity).
    intros k V _. cbn. destruct (decide (key = k)) as [-> | Hne].
    + rewrite lookup_delete_eq, lookup_insert_eq. reflexivity.
    + rewrite lookup_delete_ne, lookup_insert_ne by assumption. reflexivity.
  - intros shape key V id props HV Hkey. rewrite !object_test. cbn.
    rewrite Hkey. cbn. rewrite HV. reflexivity.
  - intros V. reflexivity.
  - intros shape id own inherited key Hkey.
    apply object_test_agree; try (discriminate || reflexivity).
    intros k V _. cbn. unfold inherit. rewrite !lookup_union.
    destruct (decide (key = k)) as [-> | Hne].
    + rewrite lookup_delete_eq, lookup_insert_eq, Hkey. reflexivity.
    + rewrite lookup_delete_ne, lookup_insert_ne by assumption. reflexivity.
  - intros id own inherited key w Hown Hinh. cbn. unfold inherit.
    rewrite (lookup_union_r own inherited key Hown), Hinh. reflexivity.
Qed.

(** The theorem on [{name: "a", extra: 1}] and [{name: "a"}], two distinct
    objects that read the same at the declared key [name]. *)
Lemma object_depends_on_declared_keys_witness :
  (typeof (VObject 1 (<["extra" := VNumber 1%float]> {["name" := VString "a"]})) = "object" /\
   typeof (VObject 2 {["name" := VString "a"]}) = "object" /\
   get (VObject 1 (<["extra" := VNumber 1%float]> {["name" := VString "a"]})) "name"
   = get (VObject 2 {["name" := VString "a"]}) "name") /\
  ms.test (ms.object [("name", ms.string)])
          (VObject 1 (<["extra" := VNumber 1%float]> {["name" := VString "a"]}))
  = ms.test (ms.object [("name", ms.string)]) (VObject 2 {["name" := VString "a"]}).
Proof.
  split; [repeat split |].
  apply (proj1 object_depends_on_declared_keys); try (discriminate || reflexivity).
  intros key V Hin. apply list_elem_of_singleton in Hin. injection Hin as -> _. reflexivity.
Defined.

(** ** Refinement combinators *)

(** Comparisons of binary64 numbers, through the specification of the
    primitive operations. *)
Lemma Prim2SF_nan (f : float) : is_nan f = true -> Prim2SF f = S754_nan.
Proof. intros Hf. unfold Prim2SF. rewrite Hf. reflexivity. Qed.

Lemma Prim2SF_not_nan (f : float) : is_nan f = false -> Prim2SF f <> S754_nan.
Proof.
  intros Hf. unfold Prim2SF. rewrite Hf.
  destruct (PrimFloat.is_zero f); [discriminate |].
  destruct (PrimFloat.is_infinity f); [discriminate |].
  destruct (Z.frexp f) as [r e].
  destruct (shr_fexp _ _ _ _ _) as [shr e'].
  destruct (shr_m shr); discriminate.
Qed.

Lemma SFcompare_antisym (x y : spec_float) :
  SFcompare y x = option_map CompOpp (SFcompare x y).
Proof.
  destruct x as [sx | sx | | sx mx ex], y as [sy | sy | | sy my ey]; cbn;
    try reflexivity; try (destruct sx; reflexivity); try (destruct sy; reflexivity);
    try (destruct sx, sy; reflexivity).
  f_equal. change (PosDef.Pos.compare_cont Eq) with Pos.compare.
  rewrite (Z.compare_antisym ex ey), (Pos.compare_antisym mx my).
  destruct sx, sy; try reflexivity;
    destruct (ex ?= ey)%Z; cbn; try reflexivity; destruct (mx ?= my)%positive; reflexivity.
Qed.

Lemma SFcompare_refl (x : spec_float) : x <> S754_nan -> SFcompare x x = Some Eq.
Proof.
  destruct x as [s | s | | s m e]; cbn; intros Hx; try congruence.
  - destruct s; reflexivity.
  - change (PosDef.Pos.compare_cont Eq) with Pos.compare.
    rewrite Z.compare_refl, Pos.compare_refl. destruct s; reflexivity.
Qed.

(** [x >= y] on numbers, as the engine defines it from [x < y], is the
    IEEE comparison [y <= x]. *)
Lemma not_less_than_leb (x y : float) :
  match number_lt x y with Some false => true | _ => false end = PrimFloat.leb y x.
Proof.
  unfold number_lt. rewrite FloatAxioms.leb_spec, FloatAxioms.ltb_spec. unfold SFleb, SFltb.
  destruct (is_nan x) eqn:Hx; cbn [orb].
  { rewrite (Prim2SF_nan x Hx). destruct (Prim2SF y); reflexivity. }
  destruct (is_nan y) eqn:Hy; cbn [orb].
  { rewrite (Prim2SF_nan y Hy). reflexivity. }
  rewrite (SFcompare_antisym (Prim2SF x) (Prim2SF y)).
  pose proof (Prim2SF_not_nan x Hx) as Hx'. pose proof (Prim2SF_not_nan y Hy) as Hy'.
  destruct (SFcompare (Prim2SF x) (Prim2SF y)) as [[| |]|] eqn:Hc; try reflexivity.
  destruct (Prim2SF x), (Prim2SF y); cbn in Hc; congruence.
Qed.

Lemma leb_not_nan (x y : float) :
  PrimFloat.leb x y = true -> is_nan x = false /\ is_nan y = false.
Proof.
  rewrite FloatAxioms.leb_spec. unfold SFleb. intros Hle.
  split; [destruct (is_nan x) eqn:Hn | destruct (is_nan y) eqn:Hn]; try reflexivity;
    rewrite (Prim2SF_nan _ Hn) in Hle.
  - discriminate Hle.
  - destruct (Prim2SF x); discriminate Hle.
Qed.

Lemma leb_refl (x : float) : is_nan x = false -> PrimFloat.leb x x = true.
Proof.
  intros Hx. rewrite FloatAxioms.leb_spec. unfold SFleb.
  rewrite SFcompare_refl; [reflexivity | apply Prim2SF_not_nan; assumption].
Qed.

Lemma js_ge_number `{Host} (a bound : float) :
  js_ge (VNumber a) bound = Normal (PrimFloat.leb bound a).
Proof. cbn. rewrite <- not_less_than_leb. reflexivity. Qed.

Lemma js_le_number `{Host} (a bound : float) :
  js_le (VNumber a) bound = Normal (PrimFloat.leb a bound).
Proof. cbn. rewrite <- not_less_than_leb. reflexivity. Qed.

(** C8: [min(V,m)], [max(V,n)] and [range(V,m,n)] accept a value exactly
    when [V] accepts it and the value satisfies [value >= m], [value <= n],
    or both; on numbers these are the IEEE comparisons [m <= value] and
    [value <= n], so both bounds are inclusive: [range(number, m, n)]
    accepts [m] and [n] themselves, and [range(number, 0, 10)] gives true
    on 5, false on -1, false on 11 and true on 10. *)
Theorem refinement_accepts_iff `{Host} (V : ms.Validator) (m n : float) (x : value) :
  (ms.test (ms.min V m) x = Normal true
   <-> ms.test V x = Normal true /\ js_ge x m = Normal true) /\
  (ms.test (ms.max V n) x = Normal true
   <-> ms.test V x = Normal true /\ js_le x n = Normal true) /\
  (ms.test (ms.range V m n) x = Normal true
   <-> ms.test V x = Normal true /\ js_ge x m = Normal true /\ js_le x n = Normal true) /\
  (forall a : float,
      js_ge (VNumber a) m = Normal (PrimFloat.leb m a) /\
      js_le (VNumber a) n = Normal (PrimFloat.leb a n) /\
      ms.test (ms.range ms.number m n) (VNumber a)
      = Normal (PrimFloat.leb m a && PrimFloat.leb a n)) /\
  (PrimFloat.leb m n = true ->
   ms.test (ms.range ms.number m n) (VNumber m) = Normal true /\
   ms.test (ms.range ms.number m n) (VNumber n) = Normal true) /\
  ms.test (ms.range ms.number 0%float 10%float) (VNumber 5%float) = Normal true /\
  ms.test (ms.range ms.number 0%float 10%float) (VNumber (-1)%float) = Normal false /\
  ms.test (ms.range ms.number 0%float 10%float) (VNumber 11%float) = Normal false /\
  ms.test (ms.range ms.number 0%float 10%float) (VNumber 10%float) = Normal true.
Proof.
  assert (Hrange : forall a : float,
             ms.test (ms.range ms.number m n) (VNumber a)
             = Normal (PrimFloat.leb m a && PrimFloat.leb a n)).
  { intros a. cbn [ms.test ms.range ms.number typeof String.eqb].
    rewrite js_ge_number, js_le_number. cbn.
    destruct (PrimFloat.leb m a); reflexivity. }
  split; [| split; [| split; [| split; [| split]]]].
  - cbn [ms.test ms.min]. apply and_then_true.
  - cbn [ms.test ms.max]. apply and_then_true.
  - cbn [ms.test ms.range]. rewrite !and_then_true. tauto.
  - intros a. split; [apply js_ge_number |]. split; [apply js_le_number | apply Hrange].
  - intros Hmn. destruct (leb_not_nan m n Hmn) as [Hm Hn].
    rewrite !Hrange, Hmn, !leb_refl by assumption. split; reflexivity.
  - repeat split; reflexivity.
Qed.

(** The theorem on [range(number, 0, 10)] at its bounds. *)
Lemma refinement_accepts_iff_witness :
  PrimFloat.leb 0%float 10%float = true /\
  ms.test (ms.range (H := constant_host) ms.number 0%float 10%float) (VNumber 0%float)
  = Normal true /\
  ms.test (ms.range (H := constant_host) ms.number 0%float 10%float) (VNumber 10%float)
  = Normal true.
Proof.
  split; [reflexivity |].
  apply (proj1 (proj2 (proj2 (proj2 (proj2
           (@refinement_accepts_iff constant_host ms.number 0%float 10%float VNull)))))).
  reflexivity.
Defined.

(** ** Validators never throw, short of the refinements *)

(** Induction on schemas, with the children of [object], [union] and
    [intersection] covered by [Forall]. *)
Lemma schema_nested_ind (P : schema -> Prop) :
  P SString -> P SNumber -> P SBoolean -> P SSymbol -> P SBigint ->
  (forall s, P s -> P (SNullable s)) ->
  (forall s, P s -> P (SUndefinable s)) ->
  (forall v, P (SLiteral v)) ->
  (forall vs, P (SOneOf vs)) ->
  (forall type vs, P type -> P (SOneOfType type vs)) ->
  (forall shape, Forall (fun entry => P (snd entry)) shape -> P (SObject shape)) ->
  (forall s, P s -> P (SArray s)) ->
  (forall ss, Forall P ss -> P (SUnion ss)) ->
  (forall ss, Forall P ss -> P (SIntersection ss)) ->
  (forall s m, P s -> P (SMin s m)) ->
  (forall s m, P s -> P (SMax s m)) ->
  (forall s m n, P s -> P (SRange s m n)) ->
  (forall s n, P s -> P (SLength s n)) ->
  (forall s m, P s -> P (SMinLength s m)) ->
  (forall s m, P s -> P (SMaxLength s m)) ->
  (forall s m n, P s -> P (SRangeLength s m n)) ->
  forall s, P s.
Proof.
  intros HString HNumber HBoolean HSymbol HBigint HNullable HUndefinable HLiteral HOneOf
    HOneOfType HObject HArray HUnion HIntersection HMin HMax HRange HLength HMinLength
    HMaxLength HRangeLength.
  fix IH 1. intros [ | | | | | s | s | v | vs | type vs | shape | s | ss | ss
                    | s m | s m | s m n | s n | s m | s m | s m n ].
  - exact HString.
  - exact HNumber.
  - exact HBoolean.
  - exact HSymbol.
  - exact HBigint.
  - apply HNullable, IH.
  - apply HUndefinable, IH.
  - apply HLiteral.
  - apply HOneOf.
  - apply HOneOfType, IH.
  - apply HObject. induction shape as [|[key s] shape IHshape]; constructor;
      [apply IH | exact IHshape].
  - apply HArray, IH.
  - apply HUnion. induction ss as [|s ss IHss]; constructor; [apply IH | exact IHss].
  - apply HIntersection. induction ss as [|s ss IHss]; constructor; [apply IH | exact IHss].
  - apply HMin, IH.
  - apply HMax, IH.
  - apply HRange, IH.
  - apply HLength, IH.
  - apply HMinLength, IH.
  - apply HMaxLength, IH.
  - apply HRangeLength, IH.
Qed.

Lemma to_numeric_orderable `{Host} (v : value) :
  orderable v = true -> exists a : numeric, to_numeric v = Normal a.
Proof. destruct v; cbn; intros Hv; try discriminate Hv; eauto. Qed.

Lemma js_ge_returns `{Host} (v : value) (bound : float) :
  orderable v = true -> returns (js_ge v bound).
Proof.
  intros Hv. destruct (to_numeric_orderable v Hv) as [a Ha].
  unfold js_ge. rewrite Ha. apply returns_Normal.
Qed.

Lemma js_le_returns `{Host} (v : value) (bound : float) :
  orderable v = true -> returns (js_le v bound).
Proof.
  intros Hv. destruct (to_numeric_orderable v Hv) as [a Ha].
  unfold js_le. rewrite Ha. apply returns_Normal.
Qed.

(** The length of a string or of an array is a number. *)
Lemma get_length_sized (v : value) :
  sized v = true -> exists n : float, get_length v = Normal (VNumber n).
Proof. destruct v; cbn; intros Hv; try discriminate Hv; eauto. Qed.

Lemma foldr_and_Forall {A : Type} (Q : A -> Prop) (l : list A) :
  foldr (fun a rest => Q a /\ rest) True l <-> Forall Q l.
Proof.
  induction l as [|a l IH]; cbn; [split; auto | rewrite IH, Forall_cons; reflexivity].
Qed.

Lemma guarded_returns `{Host} (s : schema) :
  guarded s -> forall x : value, returns (ms.test (build s) x).
Proof.
  induction s as [ | | | | | s IHs | s IHs | v | vs | type vs _ | shape IHshape | s IHs
                 | ss IHss | ss IHss | s m IHs | s m IHs | s m n IHs | s n IHs | s m IHs
                 | s m IHs | s m n IHs ] using schema_nested_ind;
    cbn [guarded]; intros Hguard x;
    cbn [build ms.test ms.string ms.number ms.boolean ms.symbol ms.bigint ms.nullable
         ms.undefinable ms.literal ms.oneOf ms.oneOfType ms.object ms.array ms.union
         ms.intersection ms.min ms.max ms.range ms.length ms.minLength ms.maxLength
         ms.rangeLength];
    try apply returns_Normal.
  - apply or_else_returns; [apply returns_Normal | auto].
  - apply or_else_returns; [apply returns_Normal | auto].
  - apply and_then_returns.
    { apply and_then_returns; intros; apply returns_Normal. }
    intros _. rewrite every_map. apply every_returns.
    apply (foldr_and_Forall (fun entry => guarded (snd entry))) in Hguard.
    rewrite Forall_forall in *. intros [key s] Hin. cbn.
    apply (IHshape (key, s) Hin), (Hguard (key, s) Hin).
  - apply and_then_returns; [apply returns_Normal |]. intros Harray.
    destruct x; try discriminate Harray. cbn [value_every].
    apply every_returns, Forall_forall. intros v _. auto.
  - rewrite some_map. apply some_returns.
    apply (foldr_and_Forall guarded) in Hguard.
    rewrite Forall_forall in *. intros s Hin. apply (IHss s Hin), (Hguard s Hin).
  - rewrite every_map. apply every_returns.
    apply (foldr_and_Forall guarded) in Hguard.
    rewrite Forall_forall in *. intros s Hin. apply (IHss s Hin), (Hguard s Hin).
  - destruct Hguard as [Hs Hkind].
    apply and_then_returns; [auto |]. intros Hacc. apply js_ge_returns; auto.
  - destruct Hguard as [Hs Hkind].
    apply and_then_returns; [auto |]. intros Hacc. apply js_le_returns; auto.
  - destruct Hguard as [Hs Hkind].
    apply and_then_returns.
    + apply and_then_returns; [auto |]. intros Hacc. apply js_ge_returns; auto.
    + intros Hacc. apply and_then_true in Hacc. apply js_le_returns, Hkind, Hacc.
  - destruct Hguard as [Hs Hkind].
    apply and_then_returns; [auto |]. intros Hacc.
    destruct (get_length_sized x (Hkind x Hacc)) as [l ->]. apply returns_Normal.
  - destruct Hguard as [Hs Hkind].
    apply and_then_returns; [auto |]. intros Hacc.
    destruct (get_length_sized x (Hkind x Hacc)) as [l ->]. apply js_ge_returns. reflexivity.
  - destruct Hguard as [Hs Hkind].
    apply and_then_returns; [auto |]. intros Hacc.
    destruct (get_length_sized x (Hkind x Hacc)) as [l ->]. apply js_le_returns. reflexivity.
  - destruct Hguard as [Hs Hkind].
    apply and_then_returns.
    + apply and_then_returns; [auto |]. intros Hacc.
      destruct (get_length_sized x (Hkind x Hacc)) as [l ->]. apply js_ge_returns. reflexivity.
    + intros Hacc. apply and_then_true in Hacc. destruct Hacc as [Hacc _].
      destruct (get_length_sized x (Hkind x Hacc)) as [l ->]. apply js_le_returns. reflexivity.
Qed.


(** Exactly when the refinements throw: when the inner test throws, or
    when it accepts a value whose conversion or whose [length] throws. *)
Lemma js_ge_throws `{Host} (v : value) (bound : float) (e : exception) :
  js_ge v bound = Throw e <-> to_numeric v = Throw e.
Proof.
  unfold js_ge. destruct (to_numeric v); cbn; split; intros; congruence.
Qed.

Lemma min_throws `{Host} (V : ms.Validator) (m : float) (x : value) (e : exception) :
  ms.test (ms.min V m) x = Throw e
  <-> ms.test V x = Throw e \/ (ms.test V x = Normal true /\ to_numeric x = Throw e).
Proof.
  cbn [ms.test ms.min]. rewrite and_then_throws, js_ge_throws. reflexivity.
Qed.

Lemma minLength_throws `{Host} (V : ms.Validator) (m : float) (x : value) (e : exception) :
  ms.test (ms.minLength V m) x = Throw e
  <-> ms.test V x = Throw e \/
      (ms.test V x = Normal true /\
       (get_length x = Throw e \/
        exists l, get_length x = Normal l /\ to_numeric l = Throw e)).
Proof.
  cbn [ms.test ms.minLength]. rewrite and_then_throws.
  destruct (get_length x) as [l | e']; cbn [mbind completion_bind bind].
  - rewrite js_ge_throws. split.
    + intros [Ht | [Ht Hl]]; [left; exact Ht | right; split; [exact Ht |]].
      right. exists l. split; [reflexivity | exact Hl].
    + intros [Ht | [Ht [Hl | (l' & Hl & Hn)]]]; [left; exact Ht | discriminate Hl |].
      right. split; [exact Ht |]. injection Hl as <-. exact Hn.
  - split.
    + intros [Ht | [Ht Hl]]; [left; exact Ht | right; split; [exact Ht | left; congruence]].
    + intros [Ht | [Ht [Hl | (l' & Hl & _)]]]; [left; exact Ht | | discriminate Hl].
      right. split; [exact Ht | congruence].
Qed.


Lemma number_accepts_orderable (x : value) :
  ms.test ms.number x = Normal true -> orderable x = true.
Proof. destruct x; cbn; congruence. Qed.




(** ** The usage and the end-to-end scenario *)

(** [member(unknownValue)] is false, and [parseUnknown(member,
    unknownValue)] raises the error of the intersection. *)
Example usage_parseUnknown `{Host} :
  ms.test member unknownValue = Normal false /\
  ms.parseUnknown member unknownValue
  = Throw (Error ("Expected intersection of Expected object, got object, "
                  ++ "Expected object, got object, got undefined")).
Proof. split; reflexivity. Qed.

(** [person] accepts [{name: "Al", age: null, sex: "man", city: null}],
    and rejects an empty name and a negative age. *)
Example person_scenario `{Host} (id : nat) :
  let someone name age :=
    VObject id (<["name" := name]> (<["age" := age]>
                 (<["sex" := VString "man"]> {["city" := VNull]}))) in
  ms.test person (someone (VString "Al") VNull) = Normal true /\
  ms.test person (someone (VString "") (VNumber 5%float)) = Normal false /\
  ms.test person (someone (VString "Al") (VNumber (-1)%float)) = Normal false.
Proof. repeat split; reflexivity. Qed.

(** [nullable(V)] accepts [null], and tests as [V] on every other value. *)
Lemma nullable_test (V : ms.Validator) (x : value) :
  ms.test (ms.nullable V) VNull = Normal true /\
  (x <> VNull -> ms.test (ms.nullable V) x = ms.test V x).
Proof.
  split; [reflexivity |]. intros Hx. cbn.
  destruct (strict_equals x VNull) eqn:Hnull.
  - apply strict_equals_null in Hnull. contradiction.
  - cbn. destruct (ms.test V x) as [[|]|]; reflexivity.
Qed.

(** ** Optionality combinators *)

Lemma strict_equals_undefined (v : value) : strict_equals v VUndefined = true <-> v = VUndefined.
Proof. destruct v; cbn; split; intros; congruence. Qed.

Lemma or_else_false_l (c : completion bool) : or_else (Normal false) c = c.
Proof. reflexivity. Qed.

(** X1: [nullable(V)] accepts exactly [null] and what [V] accepts, and
    [undefinable(V)] exactly [undefined] and what [V] accepts; on [null]
    ([undefined]) the inner validator is not consulted.  The two wrappers
    commute and each is idempotent: [nullable(undefinable(V))] tests as
    [undefinable(nullable(V))], and [nullable(nullable(V))] as
    [nullable(V)], on every value, throwing included. *)
Theorem optionality_wrappers (V : ms.Validator) (x : value) :
  (ms.test (ms.nullable V) x = Normal true <-> x = VNull \/ ms.test V x = Normal true) /\
  (ms.test (ms.undefinable V) x = Normal true
   <-> x = VUndefined \/ ms.test V x = Normal true) /\
  ms.test (ms.nullable (ms.undefinable V)) x = ms.test (ms.undefinable (ms.nullable V)) x /\
  ms.test (ms.nullable (ms.nullable V)) x = ms.test (ms.nullable V) x /\
  ms.test (ms.undefinable (ms.undefinable V)) x = ms.test (ms.undefinable V) x.
Proof.
  split; [| split; [| split; [| split]]].
  - cbn. destruct (strict_equals x VNull) eqn:Hx; cbn.
    + apply strict_equals_null in Hx. tauto.
    + split; [auto |]. intros [-> | Hacc]; [discriminate Hx |].
      rewrite Hacc. reflexivity.
  - cbn. destruct (strict_equals x VUndefined) eqn:Hx; cbn.
    + apply strict_equals_undefined in Hx. tauto.
    + split; [auto |]. intros [-> | Hacc]; [discriminate Hx |].
      rewrite Hacc. reflexivity.
  - cbn. destruct x; cbn; try reflexivity;
      match goal with
      | |- context [ms.test V ?y] => destruct (ms.test V y) as [[|]|]; reflexivity
      end.
  - cbn. destruct (strict_equals x VNull); cbn; [reflexivity |].
    destruct (ms.test V x) as [[|]|]; reflexivity.
  - cbn. destruct (strict_equals x VUndefined); cbn; [reflexivity |].
    destruct (ms.test V x) as [[|]|]; reflexivity.
Qed.

(** ** Listed values *)

Lemma float_eqb_refl (x : float) : PrimFloat.eqb x x = negb (is_nan x).
Proof.
  rewrite FloatAxioms.eqb_spec. unfold SFeqb.
  destruct (is_nan x) eqn:Hx; cbn.
  - rewrite (Prim2SF_nan x Hx). reflexivity.
  - rewrite SFcompare_refl; [reflexivity | apply Prim2SF_not_nan; assumption].
Qed.

Lemma strict_equals_refl (v : value) : strict_equals v v = negb (is_NaN v).
Proof.
  destruct v; cbn; try reflexivity.
  - apply Bool.eqb_reflx.
  - apply float_eqb_refl.
  - apply String.eqb_refl.
  - apply Nat.eqb_refl.
  - apply Z.eqb_refl.
  - apply Nat.eqb_refl.
  - apply Nat.eqb_refl.
  - apply Nat.eqb_refl.
Qed.

Lemma same_value_zero_refl (v : value) : same_value_zero v v = true.
Proof.
  rewrite same_value_zero_strict, strict_equals_refl.
  destruct (is_NaN v); reflexivity.
Qed.

(** X2: a listed value is found again: [oneOf(v1..vn)] accepts each of
    [v1..vn], NaN included, and [parse] returns it; [literal(v)] accepts [v]
    itself unless [v] is NaN, and [literal(NaN)] accepts no value at all. *)
Theorem listed_value_accepted `{Host} (values : list value) (v : value) :
  (v ∈ values -> ms.test (ms.oneOf values) v = Normal true /\
                 ms.parse (ms.oneOf values) v = Normal v) /\
  ms.test (ms.literal v) v = Normal (negb (is_NaN v)) /\
  (is_NaN v = true -> forall x : value, ms.test (ms.literal v) x = Normal false).
Proof.
  split; [| split].
  - intros Hin.
    assert (Hacc : ms.test (ms.oneOf values) v = Normal true).
    { cbn. f_equal. apply includes_true. exists v. split; [exact Hin |].
      apply same_value_zero_refl. }
    split; [exact Hacc |]. unfold ms.parse. rewrite Hacc. reflexivity.
  - cbn. rewrite strict_equals_refl. reflexivity.
  - intros Hnan x. cbn. f_equal.
    destruct v; try discriminate Hnan. cbn in Hnan.
    destruct x; cbn; try reflexivity.
    rewrite FloatAxioms.eqb_spec. unfold SFeqb.
    rewrite (Prim2SF_nan n Hnan). destruct (Prim2SF _); reflexivity.
Qed.

(** The theorem on the city list of the usage and on NaN. *)
Lemma listed_value_accepted_witness :
  (VString "Oaxaca" ∈ [VString "Oaxaca"; VString "Moscow"]) /\
  ms.parse (ms.oneOf (H := constant_host) [VString "Oaxaca"; VString "Moscow"])
           (VString "Oaxaca") = Normal (VString "Oaxaca") /\
  is_NaN (VNumber nan) = true /\
  ms.test (ms.literal (H := constant_host) (VNumber nan)) (VNumber nan) = Normal false.
Proof.
  assert (Hin : VString "Oaxaca" ∈ [VString "Oaxaca"; VString "Moscow"]) by apply list_elem_of_here.
  split; [exact Hin |]. split.
  - exact (proj2 (proj1 (@listed_value_accepted constant_host
             [VString "Oaxaca"; VString "Moscow"] (VString "Oaxaca")) Hin)).
  - split; [reflexivity |].
    exact (proj2 (proj2 (@listed_value_accepted constant_host [] (VNumber nan)))
             eq_refl (VNumber nan)).
Defined.

Lemma some_literal `{Host} (values : list value) (x : value) :
  some (fun V : ms.Validator => ms.test V x) (List.map ms.literal values)
  = Normal (existsb (fun v => strict_equals x v) values).
Proof.
  rewrite some_map. apply some_existsb, Forall_forall. intros v _. reflexivity.
Qed.

Lemma same_value_zero_not_NaN (x v : value) :
  is_NaN v = false -> same_value_zero x v = strict_equals x v.
Proof.
  intros Hv. rewrite same_value_zero_strict, Hv, andb_false_r, orb_false_r. reflexivity.
Qed.

(** X3: as the usage remarks, [oneOf] can stand for a union of literals:
    when no listed value is NaN, [union(literal(v1), .., literal(vn))] tests
    as [oneOf(v1..vn)] on every value; and listing is additive,
    [oneOf(v1..vn, w1..wm)] tests as [union(oneOf(v1..vn), oneOf(w1..wm))].
    The empty [oneOf()] accepts nothing. *)
Theorem oneOf_union_of_literals `{Host} (values more : list value) (x : value) :
  (Forall (fun v => is_NaN v = false) values ->
   ms.test (ms.union (List.map ms.literal values)) x = ms.test (ms.oneOf values) x) /\
  ms.test (ms.oneOf (values ++ more)) x
  = ms.test (ms.union [ms.oneOf values; ms.oneOf more]) x /\
  ms.test (ms.oneOf []) x = Normal false.
Proof.
  split; [| split; [| reflexivity]].
  - intros Hnan. cbn [ms.test ms.union ms.oneOf]. rewrite some_literal. f_equal.
    unfold includes. induction Hnan as [|v l Hv _ IH]; cbn; [reflexivity |].
    rewrite IH, (same_value_zero_not_NaN x v Hv). reflexivity.
  - cbn. unfold includes. rewrite existsb_app.
    destruct (existsb _ values); cbn; [reflexivity |].
    destruct (existsb _ more); reflexivity.
Qed.

(** The theorem on the [sex] field of the usage. *)
Lemma oneOf_union_of_literals_witness :
  Forall (fun v => is_NaN v = false) [VString "man"; VString "woman"] /\
  ms.test (ms.union (H := constant_host)
             [ms.literal (H := constant_host) (VString "man");
              ms.literal (H := constant_host) (VString "woman")]) (VString "woman")
  = ms.test (ms.oneOf (H := constant_host) [VString "man"; VString "woman"]) (VString "woman").
Proof.
  assert (Hnan : Forall (fun v => is_NaN v = false) [VString "man"; VString "woman"]).
  { repeat constructor. }
  split; [exact Hnan |].
  exact (proj1 (@oneOf_union_of_literals constant_host
                  [VString "man"; VString "woman"] [] (VString "woman")) Hnan).
Defined.

(** ** Lists of children *)

Lemma and_then_true_r (c : completion bool) : and_then c (Normal true) = c.
Proof. destruct c as [[|]|]; reflexivity. Qed.

Lemma or_else_false_r (c : completion bool) : or_else c (Normal false) = c.
Proof. destruct c as [[|]|]; reflexivity. Qed.

Lemma and_then_assoc (a b c : completion bool) :
  and_then (and_then a b) c = and_then a (and_then b c).
Proof. destruct a as [[|]|]; reflexivity. Qed.

Lemma or_else_assoc (a b c : completion bool) :
  or_else (or_else a b) c = or_else a (or_else b c).
Proof. destruct a as [[|]|]; reflexivity. Qed.

Lemma every_app {A : Type} (f : A -> completion bool) (l1 l2 : list A) :
  every f (l1 ++ l2) = and_then (every f l1) (every f l2).
Proof.
  induction l1 as [|a l1 IH]; cbn [every app]; [reflexivity |].
  rewrite IH, and_then_assoc. reflexivity.
Qed.

Lemma some_app {A : Type} (f : A -> completion bool) (l1 l2 : list A) :
  some f (l1 ++ l2) = or_else (some f l1) (some f l2).
Proof.
  induction l1 as [|a l1 IH]; cbn [some app]; [reflexivity |].
  rewrite IH, or_else_assoc. reflexivity.
Qed.

Lemma every_decided {A : Type} (f : A -> completion bool) (before after : list A) (a : A) :
  Forall (fun b => f b = Normal true) before -> f a = Normal false ->
  every f (before ++ a :: after) = Normal false.
Proof.
  intros Hbefore Ha. rewrite every_app, (proj2 (every_true f before) Hbefore).
  cbn. rewrite Ha. reflexivity.
Qed.

Lemma some_decided {A : Type} (f : A -> completion bool) (before after : list A) (a : A) :
  Forall (fun b => f b = Normal false) before -> f a = Normal true ->
  some f (before ++ a :: after) = Normal true.
Proof.
  intros Hbefore Ha. rewrite some_app.
  replace (some f before) with (Normal false : completion bool).
  - cbn. rewrite Ha. reflexivity.
  - symmetry. induction Hbefore as [|b l Hb _ IH]; cbn; [reflexivity |].
    rewrite Hb, IH. reflexivity.
Qed.

(** When every callback returns, the order of the list does not matter. *)
Lemma every_Permutation {A : Type} (f : A -> completion bool) (l l' : list A) :
  l ≡ₚ l' -> Forall (fun a => returns (f a)) l -> every f l = every f l'.
Proof.
  induction 1 as [| a l l' _ IH | a b l | l l' l'' Hp IH Hp' IH']; intros Hall.
  - reflexivity.
  - cbn. rewrite IH; [reflexivity | exact (Forall_inv_tail Hall)].
  - apply Forall_cons in Hall as [[x Hx] Hall]. apply Forall_cons in Hall as [[y Hy] _].
    cbn. rewrite Hx, Hy. destruct x, y; reflexivity.
  - rewrite IH by assumption. apply IH'. rewrite <- Hp. exact Hall.
Qed.

Lemma some_Permutation {A : Type} (f : A -> completion bool) (l l' : list A) :
  l ≡ₚ l' -> Forall (fun a => returns (f a)) l -> some f l = some f l'.
Proof.
  induction 1 as [| a l l' _ IH | a b l | l l' l'' Hp IH Hp' IH']; intros Hall.
  - reflexivity.
  - cbn. rewrite IH; [reflexivity | exact (Forall_inv_tail Hall)].
  - apply Forall_cons in Hall as [[x Hx] Hall]. apply Forall_cons in Hall as [[y Hy] _].
    cbn. rewrite Hx, Hy. destruct x, y; reflexivity.
  - rewrite IH by assumption. apply IH'. rewrite <- Hp. exact Hall.
Qed.



(** X5: the edge cases and the nesting of [union] and [intersection]:
    [union()] rejects every value and [intersection()] accepts every value;
    with one child each tests as the child; and nesting flattens,
    [union(union(a..), b..)] tests as [union(a.., b..)] and likewise for
    [intersection], on every value, throwing included. *)
Theorem union_intersection_flatten `{Host} (x : value) :
  ms.test (ms.union []) x = Normal false /\
  ms.test (ms.intersection []) x = Normal true /\
  (forall V : ms.Validator,
      ms.test (ms.union [V]) x = ms.test V x /\
      ms.test (ms.intersection [V]) x = ms.test V x) /\
  (forall inner outer : list ms.Validator,
      ms.test (ms.union (ms.union inner :: outer)) x = ms.test (ms.union (inner ++ outer)) x /\
      ms.test (ms.intersection (ms.intersection inner :: outer)) x
      = ms.test (ms.intersection (inner ++ outer)) x).
Proof.
  split; [reflexivity |]. split; [reflexivity |]. split.
  - intros V. cbn. rewrite or_else_false_r, and_then_true_r. split; reflexivity.
  - intros inner outer. cbn [ms.test ms.union ms.intersection some every].
    rewrite some_app, every_app. split; reflexivity.
Qed.

(** X6: evaluation stops at the child that decides: once a child of
    [union] accepts after the earlier ones rejected, the union accepts
    whatever the later children would do, throwing included; once a child of
    [intersection] rejects after the earlier ones accepted, the intersection
    rejects. *)
Theorem union_intersection_short_circuit `{Host}
    (before after : list ms.Validator) (V : ms.Validator) (x : value) :
  (Forall (fun W : ms.Validator => ms.test W x = Normal false) before ->
   ms.test V x = Normal true ->
   ms.test (ms.union (before ++ V :: after)) x = Normal true) /\
  (Forall (fun W : ms.Validator => ms.test W x = Normal true) before ->
   ms.test V x = Normal false ->
   ms.test (ms.intersection (before ++ V :: after)) x = Normal false).
Proof.
  split; intros Hbefore HV; cbn [ms.test ms.union ms.intersection].
  - apply (some_decided (fun W : ms.Validator => ms.test W x)); assumption.
  - apply (every_decided (fun W : ms.Validator => ms.test W x)); assumption.
Qed.

(** The theorem on a symbol: [union(number, symbol, min(symbol, 0))]
    accepts it although testing the last child would throw. *)
Lemma union_intersection_short_circuit_witness :
  (Forall (fun W : ms.Validator => ms.test W (VSymbol 0 None) = Normal false) [ms.number] /\
   ms.test ms.symbol (VSymbol 0 None) = Normal true /\
   ms.test (ms.min (H := constant_host) ms.symbol 0%float) (VSymbol 0 None) = Throw TypeError) /\
  ms.test (ms.union (H := constant_host)
             ([ms.number] ++ ms.symbol :: [ms.min (H := constant_host) ms.symbol 0%float]))
          (VSymbol 0 None) = Normal true.
Proof.
  assert (Hbefore : Forall (fun W : ms.Validator => ms.test W (VSymbol 0 None) = Normal false)
                           [ms.number]).
  { repeat constructor. }
  split; [split; [exact Hbefore | split; reflexivity] |].
  exact (proj1 (@union_intersection_short_circuit constant_host [ms.number]
                  [ms.min (H := constant_host) ms.symbol 0%float] ms.symbol (VSymbol 0 None))
           Hbefore eq_refl).
Defined.

(** X7: when no child throws on a value, the order of the children does
    not matter: [union] and [intersection] test the same on any permutation
    of their children.  A child that throws breaks this:
    [union(symbol, min(symbol, 0))] accepts a symbol and
    [union(min(symbol, 0), symbol)] throws on it. *)
Theorem union_intersection_order `{Host} (validators validators' : list ms.Validator) (x : value) :
  (validators ≡ₚ validators' ->
   Forall (fun V : ms.Validator => returns (ms.test V x)) validators ->
   ms.test (ms.union validators) x = ms.test (ms.union validators') x /\
   ms.test (ms.intersection validators) x = ms.test (ms.intersection validators') x) /\
  ms.test (ms.union [ms.symbol; ms.min ms.symbol 0%float]) (VSymbol 0 None) = Normal true /\
  ms.test (ms.union [ms.min ms.symbol 0%float; ms.symbol]) (VSymbol 0 None) = Throw TypeError.
Proof.
  split; [| split; reflexivity].
  intros Hperm Hall. cbn [ms.test ms.union ms.intersection]. split.
  - apply (some_Permutation (fun V : ms.Validator => ms.test V x)); assumption.
  - apply (every_Permutation (fun V : ms.Validator => ms.test V x)); assumption.
Qed.

(** The theorem on [number] and [string] in both orders. *)
Lemma union_intersection_order_witness :
  ([ms.number; ms.string] ≡ₚ [ms.string; ms.number] /\
   Forall (fun V : ms.Validator => returns (ms.test V (VString "a"))) [ms.number; ms.string]) /\
  ms.test (ms.union (H := constant_host) [ms.number; ms.string]) (VString "a")
  = ms.test (ms.union (H := constant_host) [ms.string; ms.number]) (VString "a").
Proof.
  assert (Hperm : [ms.number; ms.string] ≡ₚ [ms.string; ms.number]) by apply perm_swap.
  assert (Hall : Forall (fun V : ms.Validator => returns (ms.test V (VString "a")))
                        [ms.number; ms.string]).
  { repeat constructor; apply returns_Normal. }
  split; [split; assumption |].
  exact (proj1 (proj1 (@union_intersection_order constant_host [ms.number; ms.string]
                         [ms.string; ms.number] (VString "a")) Hperm Hall)).
Defined.

(** ** Shapes *)

Lemma intersection_objects_append `{Host}
    (shape1 shape2 : list (string * ms.Validator)) (x : value) :
  ms.test (ms.intersection [ms.object shape1; ms.object shape2]) x
  = and_then (Normal (negb (strict_equals x VNull) && String.eqb (typeof x) "object"))
             (every (fun entry => ms.test (snd entry) (get x (fst entry))) (shape1 ++ shape2)).
Proof.
  cbn [ms.test ms.intersection every]. rewrite !object_test, every_app, and_then_true_r.
  destruct (negb (strict_equals x VNull) && String.eqb (typeof x) "object"); cbn;
    [| reflexivity].
  destruct (every _ shape1) as [[|]|]; reflexivity.
Qed.

(** X8: intersecting two object validators merges their shapes.  Let
    [merged] be the entries of a shape that declares every field of two
    shapes, each once, in whatever order the engine enumerates them (a
    permutation of the entries of the first followed by those of the
    second).  Then [intersection(object(s1), object(s2))] accepts exactly
    the values [object(merged)] accepts, and the two tests are equal,
    throwing included, on every value where no field test throws.  When the
    two shapes declare the same key, the intersection tests the key with
    both validators: [intersection(object({k: A}), object({k: B}))] tests as
    [object({k: intersection(A, B)})]. *)
Theorem intersection_of_objects `{Host}
    (shape1 shape2 merged : list (string * ms.Validator)) (x : value) :
  (merged ≡ₚ shape1 ++ shape2 ->
   (ms.test (ms.intersection [ms.object shape1; ms.object shape2]) x = Normal true
    <-> ms.test (ms.object merged) x = Normal true) /\
   (Forall (fun entry => returns (ms.test (snd entry) (get x (fst entry)))) merged ->
    ms.test (ms.intersection [ms.object shape1; ms.object shape2]) x
    = ms.test (ms.object merged) x)) /\
  (forall (key : string) (A B : ms.Validator),
      ms.test (ms.intersection [ms.object [(key, A)]; ms.object [(key, B)]]) x
      = ms.test (ms.object [(key, ms.intersection [A; B])]) x).
Proof.
  split.
  - intros Hperm. rewrite intersection_objects_append, object_test. split.
    + rewrite !and_then_true, !every_true. rewrite Hperm. reflexivity.
    + intros Hall. f_equal. symmetry. apply every_Permutation; assumption.
  - intros key A B. cbn [ms.test ms.intersection every]. rewrite !object_test.
    cbn [every fst snd ms.test ms.intersection].
    rewrite !and_then_true_r.
    destruct (negb (strict_equals x VNull) && String.eqb (typeof x) "object"); cbn;
      [| reflexivity].
    destruct (ms.test A (get x key)) as [[|]|]; reflexivity.
Qed.

(** The theorem on [{name: string}] and [{0: number}]: the merged shape
    [{name: string, 0: number}] enumerates the key [0] first. *)
Lemma intersection_of_objects_witness :
  ([("0", ms.number); ("name", ms.string)] ≡ₚ [("name", ms.string)] ++ [("0", ms.number)]) /\
  ms.test (ms.intersection (H := constant_host)
             [ms.object [("name", ms.string)]; ms.object [("0", ms.number)]])
          (VObject 0 (<["name" := VString "a"]> {["0" := VNumber 1%float]}))
  = ms.test (ms.object [("0", ms.number); ("name", ms.string)])
            (VObject 0 (<["name" := VString "a"]> {["0" := VNumber 1%float]})).
Proof.
  assert (Hperm : [("0", ms.number); ("name", ms.string)]
                  ≡ₚ [("name", ms.string)] ++ [("0", ms.number)]) by apply perm_swap.
  split; [exact Hperm |].
  apply (proj2 (proj1 (@intersection_of_objects constant_host [("name", ms.string)]
                         [("0", ms.number)] [("0", ms.number); ("name", ms.string)]
                         (VObject 0 (<["name" := VString "a"]> {["0" := VNumber 1%float]})))
                  Hperm)).
  repeat constructor; apply returns_Normal.
Defined.

(** X9: the fields of a shape are tested in order and the test stops at
    the first field that fails: a value whose earlier fields are accepted
    and whose next field is rejected is rejected, whatever the later fields
    would do; and when no field test throws, the order of the fields does
    not matter. *)
Theorem object_field_order (shape shape' : list (string * ms.Validator)) (x : value) :
  (forall (before after : list (string * ms.Validator)) (key : string) (V : ms.Validator),
      Forall (fun entry => ms.test (snd entry) (get x (fst entry)) = Normal true) before ->
      ms.test V (get x key) = Normal false ->
      ms.test (ms.object (before ++ (key, V) :: after)) x = Normal false) /\
  (shape ≡ₚ shape' ->
   Forall (fun entry => returns (ms.test (snd entry) (get x (fst entry)))) shape ->
   ms.test (ms.object shape) x = ms.test (ms.object shape') x).
Proof.
  split.
  - intros before after key V Hbefore HV. rewrite object_test.
    rewrite (every_decided _ before after (key, V) Hbefore HV).
    destruct (negb _ && _); reflexivity.
  - intros Hperm Hall. rewrite !object_test. f_equal.
    apply every_Permutation; assumption.
Qed.

(** The theorem on [{name: 1}]: the [name] field is rejected before the
    [age] field, whose test would throw on the missing key, is reached. *)
Lemma object_field_order_witness :
  ms.test ms.string (get (VObject 0 {["name" := VNumber 1%float]}) "name") = Normal false /\
  ms.test (ms.minLength (H := constant_host) (ms.undefinable ms.string) 1%float)
          (get (VObject 0 {["name" := VNumber 1%float]}) "age") = Throw TypeError /\
  ms.test (ms.object ([] ++ ("name", ms.string)
                         :: [("age", ms.minLength (H := constant_host)
                                       (ms.undefinable ms.string) 1%float)]))
          (VObject 0 {["name" := VNumber 1%float]}) = Normal false.
Proof.
  split; [reflexivity |]. split; [reflexivity |].
  exact (proj1 (object_field_order [] [] (VObject 0 {["name" := VNumber 1%float]}))
           [] [("age", ms.minLength (H := constant_host) (ms.undefinable ms.string) 1%float)]
           "name" ms.string ltac:(constructor) eq_refl).
Defined.

(** ** Bounds *)

Lemma float_eqb_leb (x y : float) :
  PrimFloat.eqb x y = PrimFloat.leb y x && PrimFloat.leb x y.
Proof.
  rewrite FloatAxioms.eqb_spec, !FloatAxioms.leb_spec. unfold SFeqb, SFleb.
  rewrite (SFcompare_antisym (Prim2SF x) (Prim2SF y)).
  destruct (SFcompare (Prim2SF x) (Prim2SF y)) as [[| |]|]; reflexivity.
Qed.

Lemma js_ge_nan `{Host} (v : value) (bound : float) :
  is_nan bound = true -> js_ge v bound <> Normal true.
Proof.
  intros Hnan. unfold js_ge. destruct (to_numeric v) as [[a | z] | e]; cbn; [| | discriminate].
  - unfold number_lt. rewrite Hnan, orb_true_r. discriminate.
  - unfold bigint_compare_number. rewrite (Prim2SF_nan bound Hnan). discriminate.
Qed.

Lemma js_le_nan `{Host} (v : value) (bound : float) :
  is_nan bound = true -> js_le v bound <> Normal true.
Proof.
  intros Hnan. unfold js_le. destruct (to_numeric v) as [[a | z] | e]; cbn; [| | discriminate].
  - unfold number_lt. rewrite Hnan. discriminate.
  - unfold bigint_compare_number. rewrite (Prim2SF_nan bound Hnan). discriminate.
Qed.

Lemma strict_equals_nan (l : value) (bound : float) :
  is_nan bound = true -> strict_equals l (VNumber bound) = false.
Proof.
  intros Hnan. destruct l; cbn; try reflexivity.
  rewrite FloatAxioms.eqb_spec. unfold SFeqb.
  rewrite (Prim2SF_nan bound Hnan). destruct (Prim2SF _); reflexivity.
Qed.

(** X10: a range is the intersection of its two bounds:
    [range(V, m, n)] tests as [intersection(min(V, m), max(V, n))] and
    [rangeLength(V, m, n)] as [intersection(minLength(V, m), maxLength(V,
    n))], on every value, throwing included. *)
Theorem range_is_intersection `{Host} (V : ms.Validator) (m n : float) (x : value) :
  ms.test (ms.range V m n) x = ms.test (ms.intersection [ms.min V m; ms.max V n]) x /\
  ms.test (ms.rangeLength V m n) x
  = ms.test (ms.intersection [ms.minLength V m; ms.maxLength V n]) x.
Proof.
  cbn [ms.test ms.range ms.rangeLength ms.intersection ms.min ms.max ms.minLength
       ms.maxLength every].
  rewrite !and_then_true_r.
  split; destruct (ms.test V x) as [[|]|]; reflexivity.
Qed.

(** X11: a NaN bound accepts nothing: when a bound is NaN, [min], [max],
    [range], [length], [minLength], [maxLength] and [rangeLength] accept no
    value, whatever the inner validator is. *)
Theorem nan_bound_accepts_nothing `{Host} (V : ms.Validator) (bound other : float) (x : value) :
  is_nan bound = true ->
  ms.test (ms.min V bound) x <> Normal true /\
  ms.test (ms.max V bound) x <> Normal true /\
  ms.test (ms.range V bound other) x <> Normal true /\
  ms.test (ms.range V other bound) x <> Normal true /\
  ms.test (ms.length V bound) x <> Normal true /\
  ms.test (ms.minLength V bound) x <> Normal true /\
  ms.test (ms.maxLength V bound) x <> Normal true /\
  ms.test (ms.rangeLength V bound other) x <> Normal true /\
  ms.test (ms.rangeLength V other bound) x <> Normal true.
Proof.
  intros Hnan.
  assert (Hge : (l ← get_length x; js_ge l bound) <> Normal true).
  { destruct (get_length x); cbn; [apply js_ge_nan; exact Hnan | discriminate]. }
  assert (Hle : (l ← get_length x; js_le l bound) <> Normal true).
  { destruct (get_length x); cbn; [apply js_le_nan; exact Hnan | discriminate]. }
  assert (Heq : (l ← get_length x; Normal (strict_equals l (VNumber bound))) <> Normal true).
  { destruct (get_length x) as [l |]; cbn; [| discriminate].
    rewrite (strict_equals_nan l bound Hnan). discriminate. }
  pose proof (js_ge_nan x bound Hnan) as Hge'.
  pose proof (js_le_nan x bound Hnan) as Hle'.
  cbn [ms.test ms.min ms.max ms.range ms.length ms.minLength ms.maxLength ms.rangeLength].
  repeat split; intros Hacc; repeat rewrite and_then_true in Hacc; tauto.
Qed.

(** The theorem on [min(number, NaN)] at the number 1. *)
Lemma nan_bound_accepts_nothing_witness :
  is_nan nan = true /\
  ms.test (ms.min (H := constant_host) ms.number nan) (VNumber 1%float) <> Normal true.
Proof.
  split; [reflexivity |].
  exact (proj1 (@nan_bound_accepts_nothing constant_host ms.number nan nan (VNumber 1%float)
                  eq_refl)).
Defined.

(** ** Lengths *)

Lemma js_ge_undefined `{Host} (bound : float) : js_ge VUndefined bound = Normal false.
Proof. reflexivity. Qed.

Lemma js_le_undefined `{Host} (bound : float) : js_le VUndefined bound = Normal false.
Proof.
  cbn. unfold number_lt. destruct (is_nan bound); reflexivity.
Qed.

(** X12: on a value whose [length] is a number [l], as for every string
    (its number of code units) and every array (its number of elements), the
    length refinements compare [l] with their bounds once the inner
    validator accepts: [length] by [l === n], [minLength] by [m <= l],
    [maxLength] by [l <= n], [rangeLength] by both, inclusive at both ends;
    and [length(V, n)] tests as [rangeLength(V, n, n)]. *)
Theorem length_refinements_compare `{Host} (V : ms.Validator) (m n l : float) (x : value) :
  get_length x = Normal (VNumber l) ->
  ms.test (ms.length V n) x = and_then (ms.test V x) (Normal (PrimFloat.eqb l n)) /\
  ms.test (ms.minLength V m) x = and_then (ms.test V x) (Normal (PrimFloat.leb m l)) /\
  ms.test (ms.maxLength V n) x = and_then (ms.test V x) (Normal (PrimFloat.leb l n)) /\
  ms.test (ms.rangeLength V m n) x
  = and_then (ms.test V x) (Normal (PrimFloat.leb m l && PrimFloat.leb l n)) /\
  ms.test (ms.length V n) x = ms.test (ms.rangeLength V n n) x.
Proof.
  intros Hl. cbn [ms.test ms.length ms.minLength ms.maxLength ms.rangeLength].
  rewrite Hl. cbn [mbind completion_bind bind strict_equals].
  rewrite !js_ge_number, !js_le_number, (float_eqb_leb l n).
  repeat split; destruct (ms.test V x) as [[|]|]; cbn; try reflexivity;
    destruct (PrimFloat.leb _ l); reflexivity.
Qed.

(** The theorem on [rangeLength(string, 1, 32)], the [name] field of the
    usage, at the string "Al". *)
Lemma length_refinements_compare_witness :
  get_length (VString "Al") = Normal (VNumber 2%float) /\
  ms.test (ms.rangeLength (H := constant_host) ms.string 1%float 32%float) (VString "Al")
  = and_then (ms.test ms.string (VString "Al"))
             (Normal (PrimFloat.leb 1%float 2%float && PrimFloat.leb 2%float 32%float)).
Proof.
  split; [reflexivity |].
  exact (proj1 (proj2 (proj2 (proj2
           (@length_refinements_compare constant_host ms.string 1%float 32%float 2%float
              (VString "Al") eq_refl))))).
Defined.

(** X13: a value without a [length], as every boolean, number, symbol and
    bigint, passes no length refinement: reading [length] gives [undefined],
    which equals no bound and satisfies no comparison, so [length],
    [minLength], [maxLength] and [rangeLength] over any validator that
    accepts the value return false, whatever the bounds. *)
Theorem length_refinements_need_length `{Host} (V : ms.Validator) (m n : float) (x : value) :
  get_length x = Normal VUndefined ->
  ms.test V x = Normal true ->
  ms.test (ms.length V n) x = Normal false /\
  ms.test (ms.minLength V m) x = Normal false /\
  ms.test (ms.maxLength V n) x = Normal false /\
  ms.test (ms.rangeLength V m n) x = Normal false.
Proof.
  intros Hl HV. cbn [ms.test ms.length ms.minLength ms.maxLength ms.rangeLength].
  rewrite Hl, HV. cbn [mbind completion_bind bind].
  rewrite js_ge_undefined, js_le_undefined. repeat split; reflexivity.
Qed.

(** The theorem on [minLength(number, 0)] at the number 5. *)
Lemma length_refinements_need_length_witness :
  (get_length (VNumber 5%float) = Normal VUndefined /\
   ms.test ms.number (VNumber 5%float) = Normal true) /\
  ms.test (ms.minLength (H := constant_host) ms.number 0%float) (VNumber 5%float)
  = Normal false.
Proof.
  split; [split; reflexivity |].
  exact (proj1 (proj2 (@length_refinements_need_length constant_host ms.number 0%float
                         0%float (VNumber 5%float) eq_refl eq_refl))).
Defined.

(** X14: the order of wrapping matters for [null] and [undefined].
    [nullable(min(V, m))] accepts [null] without comparing it, while
    [min(nullable(V), m)] compares [null] as the number 0;
    [undefinable(min(V, m))] accepts [undefined], while [min] and [max] over
    [undefinable(V)] reject it for every bound; and a length refinement over
    [nullable(V)] or [undefinable(V)] throws on the value the wrapper lets
    through, while the wrapper around the refinement accepts it. *)
Theorem optional_refinement_order `{Host} (V : ms.Validator) (m : float) :
  (ms.test (ms.nullable (ms.min V m)) VNull = Normal true /\
   ms.test (ms.min (ms.nullable V) m) VNull = Normal (PrimFloat.leb m 0%float) /\
   ms.test (ms.max (ms.nullable V) m) VNull = Normal (PrimFloat.leb 0%float m)) /\
  (ms.test (ms.undefinable (ms.min V m)) VUndefined = Normal true /\
   ms.test (ms.min (ms.undefinable V) m) VUndefined = Normal false /\
   ms.test (ms.max (ms.undefinable V) m) VUndefined = Normal false) /\
  (ms.test (ms.nullable (ms.minLength V m)) VNull = Normal true /\
   ms.test (ms.minLength (ms.nullable V) m) VNull = Throw TypeError /\
   ms.test (ms.undefinable (ms.minLength V m)) VUndefined = Normal true /\
   ms.test (ms.minLength (ms.undefinable V) m) VUndefined = Throw TypeError).
Proof.
  split; [| split].
  - split; [reflexivity |].
    rewrite <- (js_ge_number 0%float m), <- (js_le_number 0%float m).
    split; reflexivity.
  - split; [reflexivity |].
    cbn [ms.test ms.min ms.max ms.undefinable strict_equals or_else and_then bind].
    split; [apply js_ge_undefined | apply js_le_undefined].
  - repeat split; reflexivity.
Qed.

(** ** Outcomes of parse *)

(** X15: [parse] returns nothing but its argument, and only when the
    validator accepts it: [parse(V, x)] returns [y] exactly when [y] is [x]
    and [V.test(x)] is true, so whatever it raises, [V] did not accept [x];
    and parsing a parsed value returns it again. *)
Theorem parse_inversion (V : ms.Validator) (x y : value) :
  (ms.parse V x = Normal y <-> y = x /\ ms.test V x = Normal true) /\
  (forall e : exception, ms.parse V x = Throw e -> ms.test V x <> Normal true) /\
  (ms.parse V x = Normal y -> ms.parseUnknown V y = Normal y).
Proof.
  assert (Hinv : ms.parse V x = Normal y -> y = x /\ ms.test V x = Normal true).
  { unfold ms.parse. destruct (ms.test V x) as [[|]|]; cbn.
    - intros Hy. injection Hy as <-. auto.
    - destruct (ms.error V x); discriminate.
    - discriminate. }
  split; [| split].
  - split; [exact Hinv |]. intros [-> Hacc]. unfold ms.parse. rewrite Hacc. reflexivity.
  - intros e Hthrow Hacc. unfold ms.parse in Hthrow. rewrite Hacc in Hthrow.
    discriminate Hthrow.
  - intros Hy. destruct (Hinv Hy) as [-> Hacc].
    unfold ms.parseUnknown, ms.parse. rewrite Hacc. reflexivity.
Qed.

(** The theorem on [parse(number, 1)]. *)
Lemma parse_inversion_witness :
  ms.parse ms.number (VNumber 1%float) = Normal (VNumber 1%float) /\
  ms.parseUnknown ms.number (VNumber 1%float) = Normal (VNumber 1%float).
Proof.
  split; [reflexivity |].
  exact (proj2 (proj2 (parse_inversion ms.number (VNumber 1%float) (VNumber 1%float)))
           eq_refl).
Defined.

(** X16: the failure of [object] and of [array] names the kind of the
    value and nothing else: whenever [object(shape)] rejects a value,
    [parse] raises the error "Expected object, got <typeof value>", the same
    whatever field failed, and whenever [array(V)] rejects a value, [parse]
    raises "Expected array, got <typeof value>"; so an object with a bad
    field raises "Expected object, got object". *)
Theorem structural_failure_message
    (shape : list (string * ms.Validator)) (V : ms.Validator) (x : value) :
  (ms.test (ms.object shape) x = Normal false ->
   ms.parse (ms.object shape) x = Throw (Error ("Expected object, got " ++ typeof x))) /\
  (ms.test (ms.array V) x = Normal false ->
   ms.parse (ms.array V) x = Throw (Error ("Expected array, got " ++ typeof x))).
Proof.
  split; intros Hrej; unfold ms.parse; rewrite Hrej; reflexivity.
Qed.

(** The theorem on [object({name: string})] at [{name: 1}]. *)
Lemma structural_failure_message_witness :
  ms.test (ms.object [("name", ms.string)]) (VObject 0 {["name" := VNumber 1%float]})
  = Normal false /\
  ms.parse (ms.object [("name", ms.string)]) (VObject 0 {["name" := VNumber 1%float]})
  = Throw (Error "Expected object, got object").
Proof.
  split; [reflexivity |].
  exact (proj1 (structural_failure_message [("name", ms.string)] ms.number
                  (VObject 0 {["name" := VNumber 1%float]})) eq_refl).
Defined.

(** ** Failure messages on primitive values *)

Lemma to_string_orderable `{Host} (v : value) :
  orderable v = true -> exists s : string, to_string v = Normal s.
Proof. destruct v; cbn; intros Hv; try discriminate Hv; eauto. Qed.

Lemma optional_toString_orderable `{Host} (v : value) :
  orderable v = true -> exists r : value, optional_toString v = Normal r /\ orderable r = true.
Proof. destruct v; cbn; intros Hv; try discriminate Hv; eauto. Qed.

Lemma toString_text_orderable `{Host} (v : value) :
  orderable v = true -> exists s : string, toString_text v = Normal s.
Proof.
  intros Hv. destruct (optional_toString_orderable v Hv) as (r & Hr & Hord).
  unfold toString_text. rewrite Hr. cbn. apply to_string_orderable. exact Hord.
Qed.

Lemma map_completion_returns {A B : Type} (f : A -> completion B) (Q : B -> Prop) (l : list A) :
  Forall (fun a => exists b, f a = Normal b /\ Q b) l ->
  exists bs : list B, map_completion f l = Normal bs /\ Forall Q bs.
Proof.
  induction 1 as [|a l (b & Hb & HQ) _ (bs & Hbs & HQs)]; cbn.
  - exists []. split; [reflexivity | constructor].
  - rewrite Hb. cbn. rewrite Hbs. cbn. exists (b :: bs). split; [reflexivity |].
    constructor; assumption.
Qed.

Lemma join_orderable `{Host} (separator : string) (items : list value) :
  Forall (fun v => orderable v = true) items ->
  exists s : string, join separator items = Normal s.
Proof.
  intros Hitems. unfold join.
  destruct (map_completion_returns
              (fun x => match x with VUndefined | VNull => Normal "" | _ => to_string x end)
              (fun _ => True) items) as (parts & Hparts & _).
  - eapply Forall_impl; [exact Hitems |]. intros v Hv. cbn in Hv.
    destruct (to_string_orderable v Hv) as [s Hs].
    destruct v; try discriminate Hv; eauto.
  - rewrite Hparts. cbn. eauto.
Qed.

Lemma forallb_Forall_true {A : Type} (f : A -> bool) (l : list A) :
  forallb f l = true -> Forall (fun a => f a = true) l.
Proof.
  rewrite forallb_forall, Forall_forall. intros Hall a Hin.
  apply Hall, list_elem_of_In, Hin.
Qed.

Lemma error_returns_orderable `{Host} (s : schema) :
  listed_orderable s = true ->
  forall x : value, orderable x = true -> exists m : string, ms.error (build s) x = Normal m.
Proof.
  induction s as [ | | | | | s IHs | s IHs | v | vs | type vs IHtype | shape IHshape | s IHs
                 | ss IHss | ss IHss | s m IHs | s m IHs | s m n IHs | s n IHs | s m IHs
                 | s m IHs | s m n IHs ] using schema_nested_ind;
    cbn [listed_orderable]; intros Hlisted x Hx;
    cbn [build ms.error ms.string ms.number ms.boolean ms.symbol ms.bigint ms.nullable
         ms.undefinable ms.literal ms.oneOf ms.oneOfType ms.object ms.array ms.union
         ms.intersection ms.min ms.max ms.range ms.length ms.minLength ms.maxLength
         ms.rangeLength];
    try (eexists; reflexivity);
    try (destruct (IHs Hlisted x Hx) as [inner ->]; cbn [mbind completion_bind bind];
         try (destruct (to_string_orderable x Hx) as [got ->]; cbn [mbind completion_bind bind]);
         eexists; reflexivity).
  - destruct (toString_text_orderable v Hlisted) as [expected ->].
    destruct (toString_text_orderable x Hx) as [got ->]. cbn. eauto.
  - destruct (map_completion_returns optional_toString (fun r => orderable r = true) vs)
      as (items & -> & Hitems).
    { eapply Forall_impl; [exact (forallb_Forall_true _ _ Hlisted) |].
      intros v Hv. apply optional_toString_orderable. exact Hv. }
    cbn [mbind completion_bind bind].
    destruct (join_orderable ", " items Hitems) as [expected ->].
    destruct (toString_text_orderable x Hx) as [got ->]. cbn. eauto.
  - apply andb_true_iff in Hlisted as [Htype Hvs].
    destruct (map_completion_returns (fun v => ms.error (build type) v) (fun _ => True) vs)
      as (items & -> & _).
    { eapply Forall_impl; [exact (forallb_Forall_true _ _ Hvs) |].
      intros v Hv. destruct (IHtype Htype v Hv) as [m Hm]. eauto. }
    destruct (toString_text_orderable x Hx) as [got ->]. cbn. eauto.
  - destruct (map_completion_returns (fun V : ms.Validator => ms.error V x) (fun _ => True)
                (List.map build ss)) as (items & -> & _).
    { apply Forall_map. apply forallb_Forall_true in Hlisted.
      rewrite Forall_forall in *. intros s Hin.
      destruct (IHss s Hin (Hlisted s Hin) x Hx) as [m Hm]. eauto. }
    destruct (toString_text_orderable x Hx) as [got ->]. cbn. eauto.
  - destruct (map_completion_returns (fun V : ms.Validator => ms.error V x) (fun _ => True)
                (List.map build ss)) as (items & -> & _).
    { apply Forall_map. apply forallb_Forall_true in Hlisted.
      rewrite Forall_forall in *. intros s Hin.
      destruct (IHss s Hin (Hlisted s Hin) x Hx) as [m Hm]. eauto. }
    destruct (toString_text_orderable x Hx) as [got ->]. cbn. eauto.
Qed.

(** X17: on a value that is neither a symbol nor an object, producing the
    failure message never throws: for every validator built from the
    factories whose listed values ([literal], [oneOf], [oneOfType]) are
    themselves neither symbols nor objects, [error] returns a message on
    every such value, whether or not the validator accepts it. *)
Theorem error_returns_message `{Host} (s : schema) (x : value) :
  listed_orderable s = true -> orderable x = true ->
  exists m : string, ms.error (build s) x = Normal m.
Proof. intros Hlisted Hx. apply error_returns_orderable; assumption. Qed.

(** The theorem on the [sex] field of the usage at the boolean true. *)
Lemma error_returns_message_witness :
  (listed_orderable (SUnion [SLiteral (VString "man"); SLiteral (VString "woman")]) = true /\
   orderable (VBoolean true) = true) /\
  exists m : string,
    ms.error (build (H := constant_host)
                (SUnion [SLiteral (VString "man"); SLiteral (VString "woman")]))
             (VBoolean true) = Normal m.
Proof.
  split; [split; reflexivity |].
  exact (@error_returns_message constant_host
           (SUnion [SLiteral (VString "man"); SLiteral (VString "woman")])
           (VBoolean true) eq_refl eq_refl).
Defined.

(** X18: on a value that is neither a symbol nor an object, [parse] has
    two outcomes only: for a validator whose refinements are guarded by what
    they refine and whose listed values are neither symbols nor objects,
    [parse] returns the value when the test is true, and otherwise raises an
    [Error] carrying exactly the message of [error]; it raises no
    TypeError. *)
Theorem parse_outcome_orderable `{Host} (s : schema) (x : value) :
  guarded s -> listed_orderable s = true -> orderable x = true ->
  (ms.test (build s) x = Normal true /\ ms.parse (build s) x = Normal x) \/
  (exists m : string,
      ms.test (build s) x = Normal false /\ ms.error (build s) x = Normal m /\
      ms.parse (build s) x = Throw (Error m)).
Proof.
  intros Hguard Hlisted Hx.
  destruct (guarded_returns s Hguard x) as [[|] Htest].
  - left. split; [exact Htest |]. unfold ms.parse. rewrite Htest. reflexivity.
  - right. destruct (error_returns_orderable s Hlisted x Hx) as [m Hm].
    exists m. split; [exact Htest |]. split; [exact Hm |].
    unfold ms.parse. rewrite Htest, Hm. reflexivity.
Qed.

(** The theorem on [nullable(min(number, 0))], the [age] field of the
    usage, at the number -1. *)
Lemma parse_outcome_orderable_witness :
  (guarded (H := constant_host) (SNullable (SMin SNumber 0%float)) /\
   listed_orderable (SNullable (SMin SNumber 0%float)) = true /\
   orderable (VNumber (-1)%float) = true) /\
  ((ms.test (build (H := constant_host) (SNullable (SMin SNumber 0%float)))
            (VNumber (-1)%float) = Normal true /\
    ms.parse (build (H := constant_host) (SNullable (SMin SNumber 0%float)))
             (VNumber (-1)%float) = Normal (VNumber (-1)%float)) \/
   (exists m : string,
       ms.test (build (H := constant_host) (SNullable (SMin SNumber 0%float)))
               (VNumber (-1)%float) = Normal false /\
       ms.error (build (H := constant_host) (SNullable (SMin SNumber 0%float)))
                (VNumber (-1)%float) = Normal m /\
       ms.parse (build (H := constant_host) (SNullable (SMin SNumber 0%float)))
                (VNumber (-1)%float) = Throw (Error m))).
Proof.
  assert (Hguard : guarded (H := constant_host) (SNullable (SMin SNumber 0%float))).
  { cbn [guarded]. split; [exact I | exact number_accepts_orderable]. }
  split; [split; [exact Hguard | split; reflexivity] |].
  exact (@parse_outcome_orderable constant_host (SNullable (SMin SNumber 0%float))
           (VNumber (-1)%float) Hguard eq_refl eq_refl).
Defined.

(** ** The order of bounds *)

Lemma SFleb_trans (x y z : spec_float) :
  SFleb x y = true -> SFleb y z = true -> SFleb x z = true.
Proof.
  unfold SFleb.
  destruct x as [sx | sx | | sx mx ex], y as [sy | sy | | sy my ey], z as [sz | sz | | sz mz ez];
    cbn; try discriminate; try reflexivity;
    try (destruct sx; try discriminate; try reflexivity);
    try (destruct sy; try discriminate; try reflexivity);
    try (destruct sz; try discriminate; try reflexivity);
    try (intros; discriminate); try (intros; reflexivity).
  all: change (PosDef.Pos.compare_cont Eq) with Pos.compare.
  all: destruct (Z.compare_spec ex ey), (Z.compare_spec ey ez), (Z.compare_spec ex ez);
    cbn; try discriminate; try reflexivity; try lia; subst;
    destruct (Pos.compare_spec mx my), (Pos.compare_spec my mz), (Pos.compare_spec mx mz);
    cbn; try discriminate; try reflexivity; try lia.
Qed.

Lemma leb_trans (x y z : float) :
  PrimFloat.leb x y = true -> PrimFloat.leb y z = true -> PrimFloat.leb x z = true.
Proof. rewrite !FloatAxioms.leb_spec. apply SFleb_trans. Qed.

Lemma min_number `{Host} (V : ms.Validator) (m a : float) :
  ms.test (ms.min V m) (VNumber a) = and_then (ms.test V (VNumber a)) (Normal (PrimFloat.leb m a)).
Proof. cbn [ms.test ms.min]. rewrite js_ge_number. reflexivity. Qed.

Lemma max_number `{Host} (V : ms.Validator) (n a : float) :
  ms.test (ms.max V n) (VNumber a) = and_then (ms.test V (VNumber a)) (Normal (PrimFloat.leb a n)).
Proof. cbn [ms.test ms.max]. rewrite js_le_number. reflexivity. Qed.

(** X19: bounds on numbers behave as an order.  A range whose lower
    bound is not below its upper bound accepts no number: if [range(V, m,
    n)] accepts a number then [m <= n].  Loosening a bound keeps what was
    accepted: a number accepted by [min(V, m)] is accepted by [min(V, m')]
    for every [m' <= m], and one accepted by [max(V, n)] by [max(V, n')] for
    every [n <= n'].  And of two nested lower bounds the tighter decides:
    for [m' <= m], [min(min(V, m), m')] tests numbers as [min(V, m)]. *)
Theorem bounds_order `{Host} (V : ms.Validator) (m m' n n' a : float) :
  (ms.test (ms.range V m n) (VNumber a) = Normal true -> PrimFloat.leb m n = true) /\
  (PrimFloat.leb m' m = true -> ms.test (ms.min V m) (VNumber a) = Normal true ->
   ms.test (ms.min V m') (VNumber a) = Normal true) /\
  (PrimFloat.leb n n' = true -> ms.test (ms.max V n) (VNumber a) = Normal true ->
   ms.test (ms.max V n') (VNumber a) = Normal true) /\
  (PrimFloat.leb m' m = true ->
   ms.test (ms.min (ms.min V m) m') (VNumber a) = ms.test (ms.min V m) (VNumber a)).
Proof.
  split; [| split; [| split]].
  - cbn [ms.test ms.range]. rewrite js_ge_number, js_le_number, !and_then_true.
    intros [[_ Hm] Hn]. injection Hm as Hm. injection Hn as Hn.
    exact (leb_trans m a n Hm Hn).
  - intros Hmm. rewrite !min_number, !and_then_true. intros [HV Hm].
    injection Hm as Hm. split; [exact HV |]. f_equal. exact (leb_trans m' m a Hmm Hm).
  - intros Hnn. rewrite !max_number, !and_then_true. intros [HV Hn].
    injection Hn as Hn. split; [exact HV |]. f_equal. exact (leb_trans a n n' Hn Hnn).
  - intros Hmm. rewrite (min_number (ms.min V m)), min_number.
    destruct (ms.test V (VNumber a)) as [[|]|]; cbn; try reflexivity.
    destruct (PrimFloat.leb m a) eqn:Hm; cbn; [| reflexivity].
    rewrite (leb_trans m' m a Hmm Hm). reflexivity.
Qed.

(** The theorem on [min(number, 0)], the [age] bound of the usage: the
    number 5 it accepts is accepted with the looser bound -1. *)
Lemma bounds_order_witness :
  (PrimFloat.leb (-1)%float 0%float = true /\
   ms.test (ms.min (H := constant_host) ms.number 0%float) (VNumber 5%float) = Normal true) /\
  ms.test (ms.min (H := constant_host) ms.number (-1)%float) (VNumber 5%float) = Normal true.
Proof.
  split; [split; reflexivity |].
  exact (proj1 (proj2 (@bounds_order constant_host ms.number 0%float (-1)%float 0%float
                         0%float 5%float)) eq_refl eq_refl).
Defined.

(** ** The message of oneOfType *)

Lemma map_completion_Forall2 {A B : Type} (f : A -> completion B) (l l' : list A) :
  Forall2 (fun a a' => f a = f a') l l' -> map_completion f l = map_completion f l'.
Proof.
  induction 1 as [|a a' l l' Ha _ IH]; cbn; [reflexivity | rewrite Ha, IH; reflexivity].
Qed.

(** X20: the failure message of [oneOfType] does not show the listed
    values: it is built from the type validator's message about each listed
    value, so when that message depends on the kind of its argument only (as
    for the primitives, [object] and [array]), two lists whose values have
    pairwise the same [typeof] give the same message on every input. *)
Theorem oneOfType_message_hides_values `{Host}
    (type : ms.Validator) (values values' : list value) (x : value) :
  (forall u v : value, typeof u = typeof v -> ms.error type u = ms.error type v) ->
  Forall2 (fun v v' => typeof v = typeof v') values values' ->
  ms.error (ms.oneOfType type values) x = ms.error (ms.oneOfType type values') x.
Proof.
  intros Hkind Hsame. cbn [ms.error ms.oneOfType].
  rewrite (map_completion_Forall2 (fun v => ms.error type v) values values');
    [reflexivity |].
  eapply Forall2_impl; [exact Hsame |]. intros v v' Hv. cbn. apply Hkind. exact Hv.
Qed.

(** The theorem on [oneOfType(string, "admin")] and [oneOfType(string,
    "user")]: both fail on 5 with the same message. *)
Lemma oneOfType_message_hides_values_witness :
  (forall u v : value, typeof u = typeof v -> ms.error ms.string u = ms.error ms.string v) /\
  Forall2 (fun v v' => typeof v = typeof v') [VString "admin"] [VString "user"] /\
  ms.error (ms.oneOfType (H := constant_host) ms.string [VString "admin"]) (VBigInt 5)
  = ms.error (ms.oneOfType (H := constant_host) ms.string [VString "user"]) (VBigInt 5).
Proof.
  assert (Hkind : forall u v : value,
             typeof u = typeof v -> ms.error ms.string u = ms.error ms.string v).
  { intros u v Huv. cbn. rewrite Huv. reflexivity. }
  assert (Hsame : Forall2 (fun v v' => typeof v = typeof v') [VString "admin"] [VString "user"]).
  { repeat constructor. }
  split; [exact Hkind |]. split; [exact Hsame |].
  exact (@oneOfType_message_hides_values constant_host ms.string [VString "admin"]
           [VString "user"] (VBigInt 5) Hkind Hsame).
Defined.
